(** * plan-my-study: the SM-2 review scheduler and its call sites

    A shallow embedding of [backend/sm2.py] and of the three CRUD functions
    that drive it ([backend/crud/study_session.py],
    [backend/crud/learning_history.py], [backend/crud/newsletter.py]),
    followed by the properties of the specification that concern them.

    Modelling conventions.
    - A Python [int] is a [Z].
    - A Python [float] is an IEEE-754 binary64 value, taken from the
      standard library's executable specification [SpecFloat] with
      [prec = 53] and [emax = 1024]; arithmetic rounds to nearest, ties to
      even, exactly as CPython does on every supported platform.
    - A [datetime.date] is its day number (what [date.toordinal] returns) and
      [d + timedelta(days=n)] is [d + n].  The calendar's two ends (years 1
      and 9999) are outside the model.
    - A raised exception is the [Raise] result of an error monad.
    - The SQLAlchemy session is an explicit state: the committed tables, the
      rows of the open transaction and the rows added but not yet flushed. *)

From Stdlib Require Import ZArith QArith Qpower List Bool Lia Lqa String.
From Stdlib Require Import Sorting.Permutation Sorting.Sorted.
From Stdlib Require Import Floats.SpecFloat.
Import ListNotations.
Local Open Scope Z_scope.

(** ** Exceptions and the error monad *)

Inductive exn : Type :=
| TypeError        (* an operand of the wrong type, here [5 - None] *)
| OverflowError    (* int too large for a float; [round] of an infinity *)
| ValueError       (* [round] of a NaN *)
| AttributeError.  (* attribute access on [None] *)

Inductive result (A : Type) : Type :=
| Ok (a : A)
| Raise (e : exn).
Arguments Ok {A} a.
Arguments Raise {A} e.

Definition bind {A B : Type} (r : result A) (k : A -> result B) : result B :=
  match r with
  | Ok a => k a
  | Raise e => Raise e
  end.

Notation "x <- c1 ;; c2" := (bind c1 (fun x => c2))
  (at level 61, c1 at next level, right associativity).
Notation "' pat <- c1 ;; c2" := (bind c1 (fun x => match x with pat => c2 end))
  (at level 61, pat pattern, c1 at next level, right associativity).

Definition returns {A : Type} (r : result A) : Prop := exists a, r = Ok a.
Definition raises {A : Type} (r : result A) : Prop := exists e, r = Raise e.

(** ** Python floats *)

Module PyFloat.

Definition prec : Z := 53.
Definition emax : Z := 1024.

Definition float : Type := spec_float.

Definition add : float -> float -> float := SFadd prec emax.
Definition sub : float -> float -> float := SFsub prec emax.
Definition mul : float -> float -> float := SFmul prec emax.
Definition ltb : float -> float -> bool := SFltb.
Definition leb : float -> float -> bool := SFleb.

(** [x >= y] as Python evaluates it: false as soon as a NaN is involved. *)
Definition geb (x y : float) : bool := SFleb y x.

(** A value of the type: canonical mantissa and exponent in range. *)
Definition is_float (x : float) : bool := valid_binary prec emax x.

Definition is_finite (x : float) : bool :=
  match x with
  | S754_zero _ | S754_finite _ _ _ => true
  | S754_infinity _ | S754_nan => false
  end.

Definition is_nan (x : float) : bool :=
  match x with
  | S754_nan => true
  | _ => false
  end.

(** The literals of [sm2.py], each the binary64 value nearest to the
    decimal numeral. *)
Definition f0_1 : float := S754_finite false 7205759403792794 (-56).
Definition f0_08 : float := S754_finite false 5764607523034235 (-56).
Definition f0_02 : float := S754_finite false 5764607523034235 (-58).
Definition f1_3 : float := S754_finite false 5854679515581645 (-52).
Definition f2_5 : float := S754_finite false 5629499534213120 (-51).

(** [float(n)] for an [int]: correctly rounded, [OverflowError] when the
    rounded value is beyond the largest float. *)
Definition of_int (n : Z) : result float :=
  match binary_normalize prec emax n 0 false with
  | S754_infinity _ => Raise OverflowError
  | f => Ok f
  end.

(** [n * x] with [n] an [int] and [x] a [float]: the [int] is converted
    first. *)
Definition int_mul (n : Z) (x : float) : result float :=
  f <- of_int n ;; Ok (mul f x).

(** The integer nearest to [m * 2^e], ties to the even one. *)
Definition round_half_even (m : positive) (e : Z) : Z :=
  match e with
  | Zneg p =>
      let d := 2 ^ Zpos p in
      let q := Zpos m / d in
      let r := Zpos m mod d in
      match 2 * r ?= d with
      | Lt => q
      | Gt => q + 1
      | Eq => if Z.even q then q else q + 1
      end
  | _ => Zpos m * 2 ^ e
  end.

(** [round(x)] with one argument: an [int], or an exception on an infinity
    or a NaN. *)
Definition round (x : float) : result Z :=
  match x with
  | S754_zero _ => Ok 0
  | S754_finite s m e => Ok (cond_Zopp s (round_half_even m e))
  | S754_infinity _ => Raise OverflowError
  | S754_nan => Raise ValueError
  end.

(** [max(a, b)] on floats: [b] only when [b > a]. *)
Definition max (a b : float) : float := if ltb a b then b else a.

End PyFloat.

Import PyFloat.

(** ** Dates *)

Definition date : Type := Z.

(** [d + timedelta(days=n)] *)
Definition add_days (d : date) (n : Z) : date := d + n.

(** ** backend/sm2.py *)

Module SM2Algorithm.

(** The value a parameter annotated [int] receives: an [int], or [None]
    when the caller hands one over. *)
Definition as_int (v : option Z) : result Z :=
  match v with
  | Some n => Ok n
  | None => Raise TypeError
  end.

(** The default of the [quality] parameter, used when the caller leaves the
    argument out. *)
Definition default_quality : Z := 4.

Definition calculate_next_review (today : date)
    (easiness_factor : float) (interval repetitions : Z)
    (quality : option Z) (reference_date : option date)
  : result (float * Z * Z * date) :=
  q <- as_int quality ;;
  t <- int_mul (5 - q) f0_02 ;;
  u <- int_mul (5 - q) (add f0_08 t) ;;
  let new_ef := add easiness_factor (sub f0_1 u) in
  let new_ef := if ltb new_ef f1_3 then f1_3 else new_ef in
  '(new_repetitions, new_interval) <-
    (if q <? 3 then Ok (0, 1)
     else
       let new_repetitions := repetitions + 1 in
       if new_repetitions =? 1 then Ok (new_repetitions, 1)
       else if new_repetitions =? 2 then Ok (new_repetitions, 6)
       else
         p <- int_mul interval new_ef ;;
         n <- round p ;;
         Ok (new_repetitions, n)) ;;
  let base_date := match reference_date with
                   | Some d => d
                   | None => today
                   end in
  let next_review_date := add_days base_date new_interval in
  Ok (new_ef, new_interval, new_repetitions, next_review_date).

Definition initialize_topic (today : date) (reference_date : option date)
  : float * Z * Z * date :=
  let initial_ef := f2_5 in
  let initial_interval := 1 in
  let initial_reps := 0 in
  let base_date := match reference_date with
                   | Some d => d
                   | None => today
                   end in
  let next_review_date := add_days base_date 1 in
  (initial_ef, initial_interval, initial_reps, next_review_date).

Definition is_due_for_review (today : date) (next_review_date : date) : bool :=
  next_review_date <=? today.

Definition get_days_overdue (today : date) (next_review_date : date) : Z :=
  if today <? next_review_date then 0 else today - next_review_date.

End SM2Algorithm.

Import SM2Algorithm.

(** ** backend/models and backend/schemas.py *)

Module User.
Record t : Type := { id : Z; name : string }.
End User.

Module Newsletter.
Record t : Type :=
  { id : Z; user_id : option Z; month : string; year : Z }.
End Newsletter.

Module CurriculumItem.
Record t : Type :=
  { id : Z; newsletter_id : Z; subject : string; topic : string;
    start_date : date; end_date : option date }.
End CurriculumItem.

Module LearningHistory.
Record t : Type :=
  { id : Z; user_id : Z; subject : string; topic : string;
    easiness_factor : float; interval : Z; repetitions : Z;
    last_reviewed : option date; next_review : date }.
End LearningHistory.

Module StudySession.
Record t : Type :=
  { id : Z; user_id : Z; learning_history_id : Z;
    session_date : date; session_type : string;
    quality_rating : option Z; notes : option string }.
End StudySession.

Module CurriculumItemSchema.
Record t : Type :=
  { subject : string; topic : string;
    start_date : date; end_date : option date }.
End CurriculumItemSchema.

(** ** The SQLAlchemy session

    [backend/database.py], which builds the session factory, is not part of
    the sources at hand, so the one setting of it that the functions below can
    observe, [autoflush], is a field of the session.  Primary keys are the
    ones an INTEGER PRIMARY KEY column draws (one more than the largest key in
    use); the model hands them out when a row is added, which none of the
    functions below can tell from handing them out at the flush. *)

Record Tables : Type :=
  { users : list User.t;
    newsletters : list Newsletter.t;
    curriculum_items : list CurriculumItem.t;
    learning_history : list LearningHistory.t;
    study_sessions : list StudySession.t }.

Definition no_rows : Tables :=
  {| users := []; newsletters := []; curriculum_items := [];
     learning_history := []; study_sessions := [] |}.

Definition append_tables (a b : Tables) : Tables :=
  {| users := users a ++ users b;
     newsletters := newsletters a ++ newsletters b;
     curriculum_items := curriculum_items a ++ curriculum_items b;
     learning_history := learning_history a ++ learning_history b;
     study_sessions := study_sessions a ++ study_sessions b |}.

Record Db : Type :=
  { autoflush : bool;
    stored : Tables;   (* what has been committed *)
    live : Tables;     (* the rows as the open transaction has them *)
    added : Tables }.  (* [db.add]-ed objects awaiting their INSERT *)

Definition flush (db : Db) : Db :=
  {| autoflush := autoflush db;
     stored := stored db;
     live := append_tables (live db) (added db);
     added := no_rows |}.

(** What a query does before it reads. *)
Definition flush_for_query (db : Db) : Db :=
  if autoflush db then flush db else db.

(** [db.commit()] *)
Definition commit (db : Db) : Db :=
  let db := flush db in
  {| autoflush := autoflush db;
     stored := live db;
     live := live db;
     added := no_rows |}.

(** Every row the session holds, flushed or not. *)
Definition session_rows (db : Db) : Tables := append_tables (live db) (added db).

Definition next_id (ids : list Z) : Z := 1 + fold_right Z.max 0 ids.

Definition add_study_session (db : Db) (s : StudySession.t) : Db :=
  {| autoflush := autoflush db; stored := stored db; live := live db;
     added :=
       {| users := users (added db);
          newsletters := newsletters (added db);
          curriculum_items := curriculum_items (added db);
          learning_history := learning_history (added db);
          study_sessions := study_sessions (added db) ++ [s] |} |}.

Definition add_curriculum_item (db : Db) (c : CurriculumItem.t) : Db :=
  {| autoflush := autoflush db; stored := stored db; live := live db;
     added :=
       {| users := users (added db);
          newsletters := newsletters (added db);
          curriculum_items := curriculum_items (added db) ++ [c];
          learning_history := learning_history (added db);
          study_sessions := study_sessions (added db) |} |}.

Definition add_learning_history (db : Db) (l : LearningHistory.t) : Db :=
  {| autoflush := autoflush db; stored := stored db; live := live db;
     added :=
       {| users := users (added db);
          newsletters := newsletters (added db);
          curriculum_items := curriculum_items (added db);
          learning_history := learning_history (added db) ++ [l];
          study_sessions := study_sessions (added db) |} |}.

(** Replace the first element that satisfies [p]. *)
Fixpoint update_first {A : Type} (p : A -> bool) (a' : A) (l : list A) : list A :=
  match l with
  | [] => []
  | x :: l' => if p x then a' :: l' else x :: update_first p a' l'
  end.

(** Attribute assignment on a loaded [LearningHistory] object: the object is
    the first row of the transaction with that key. *)
Definition write_learning_history (db : Db) (l : LearningHistory.t) : Db :=
  {| autoflush := autoflush db; stored := stored db;
     live :=
       {| users := users (live db);
          newsletters := newsletters (live db);
          curriculum_items := curriculum_items (live db);
          learning_history :=
            update_first (fun x => LearningHistory.id x =? LearningHistory.id l)
                         l (learning_history (live db));
          study_sessions := study_sessions (live db) |};
     added := added db |}.

(** [db.query(T)...]: the rows a query reads, and the session after the flush
    that precedes the read. *)
Definition query_learning_history (db : Db) : list LearningHistory.t * Db :=
  let db := flush_for_query db in (learning_history (live db), db).

Definition query_newsletters (db : Db) : list Newsletter.t * Db :=
  let db := flush_for_query db in (newsletters (live db), db).

Definition query_users (db : Db) : list User.t * Db :=
  let db := flush_for_query db in (users (live db), db).

(** [.first()] on the filtered rows *)
Definition first {A : Type} (p : A -> bool) (rows : list A) : option A :=
  find p rows.

(** ** backend/crud/study_session.py *)

(** The object [StudySession(...)] builds, with the key its INSERT draws. *)
Definition new_study_session (db : Db) (user_id learning_history_id : Z)
    (session_date : date) (session_type : string)
    (quality_rating : option Z) (notes : option string) : StudySession.t :=
  {| StudySession.id :=
       next_id (map StudySession.id (study_sessions (session_rows db)));
     StudySession.user_id := user_id;
     StudySession.learning_history_id := learning_history_id;
     StudySession.session_date := session_date;
     StudySession.session_type := session_type;
     StudySession.quality_rating := quality_rating;
     StudySession.notes := notes |}.

(** The filter [LearningHistory.id == learning_history_id]. *)
Definition has_id (learning_history_id : Z) (x : LearningHistory.t) : bool :=
  LearningHistory.id x =? learning_history_id.

(** The five assignments to the attributes of [lh]. *)
Definition reviewed (lh : LearningHistory.t) (new_ef : float)
    (new_interval new_reps : Z) (session_date next_review : date)
  : LearningHistory.t :=
  {| LearningHistory.id := LearningHistory.id lh;
     LearningHistory.user_id := LearningHistory.user_id lh;
     LearningHistory.subject := LearningHistory.subject lh;
     LearningHistory.topic := LearningHistory.topic lh;
     LearningHistory.easiness_factor := new_ef;
     LearningHistory.interval := new_interval;
     LearningHistory.repetitions := new_reps;
     LearningHistory.last_reviewed := Some session_date;
     LearningHistory.next_review := next_review |}.

Definition record_study_session (today : date) (db : Db)
    (user_id learning_history_id : Z) (session_date : date)
    (session_type : string) (quality_rating : option Z)
    (notes : option string)
  : result StudySession.t * Db :=
  let session :=
    new_study_session db user_id learning_history_id session_date
      session_type quality_rating notes in
  let db := add_study_session db session in
  let '(rows, db) := query_learning_history db in
  match first (has_id learning_history_id) rows with
  | Some lh =>
      match calculate_next_review today
              (LearningHistory.easiness_factor lh)
              (LearningHistory.interval lh)
              (LearningHistory.repetitions lh)
              quality_rating (Some session_date) with
      | Raise e => (Raise e, db)
      | Ok (new_ef, new_interval, new_reps, next_review) =>
          let db :=
            write_learning_history db
              (reviewed lh new_ef new_interval new_reps session_date
                 next_review) in
          (Ok session, commit db)
      end
  | None => (Ok session, commit db)
  end.

(** ** backend/crud/learning_history.py *)

Definition get_due_topics (today : date) (db : Db) (user_id : Z)
  : list LearningHistory.t * Db :=
  let '(rows, db) := query_learning_history db in
  (filter (fun x => (LearningHistory.user_id x =? user_id)
                    && (LearningHistory.next_review x <=? today)) rows,
   db).

Definition get_learning_history (db : Db) (user_id : Z)
  : list LearningHistory.t * Db :=
  let '(rows, db) := query_learning_history db in
  (filter (fun x => LearningHistory.user_id x =? user_id) rows, db).

(** ** backend/crud/newsletter.py *)

(** [newsletter.user]: the row of [users] the foreign key points at, [None]
    when there is none. *)
Definition newsletter_user (db : Db) (n : Newsletter.t) : option User.t * Db :=
  match Newsletter.user_id n with
  | None => (None, db)
  | Some uid =>
      let '(rows, db) := query_users db in
      (first (fun u => User.id u =? uid) rows, db)
  end.

(** The object [CurriculumItem(newsletter_id=..., **item.model_dump())]. *)
Definition new_curriculum_item (db : Db) (newsletter_id : Z)
    (item : CurriculumItemSchema.t) : CurriculumItem.t :=
  {| CurriculumItem.id :=
       next_id (map CurriculumItem.id (curriculum_items (session_rows db)));
     CurriculumItem.newsletter_id := newsletter_id;
     CurriculumItem.subject := CurriculumItemSchema.subject item;
     CurriculumItem.topic := CurriculumItemSchema.topic item;
     CurriculumItem.start_date := CurriculumItemSchema.start_date item;
     CurriculumItem.end_date := CurriculumItemSchema.end_date item |}.

(** The filter on [user_id], [subject] and [topic]. *)
Definition same_topic (user_id : Z) (subject topic : string)
    (x : LearningHistory.t) : bool :=
  (LearningHistory.user_id x =? user_id)
  && String.eqb (LearningHistory.subject x) subject
  && String.eqb (LearningHistory.topic x) topic.

(** The object [LearningHistory(...)] built from what [initialize_topic]
    returned; [last_reviewed] is not given and stays [None]. *)
Definition new_learning_history (db : Db) (user : User.t)
    (item : CurriculumItemSchema.t) (ef : float) (interval reps : Z)
    (next_review : date) : LearningHistory.t :=
  {| LearningHistory.id :=
       next_id (map LearningHistory.id (learning_history (session_rows db)));
     LearningHistory.user_id := User.id user;
     LearningHistory.subject := CurriculumItemSchema.subject item;
     LearningHistory.topic := CurriculumItemSchema.topic item;
     LearningHistory.easiness_factor := ef;
     LearningHistory.interval := interval;
     LearningHistory.repetitions := reps;
     LearningHistory.last_reviewed := None;
     LearningHistory.next_review := next_review |}.

(** One turn of the [for item in items] loop. *)
Definition add_curriculum_items_body (today : date) (db : Db)
    (newsletter_id : Z) (item : CurriculumItemSchema.t)
  : result unit * Db :=
  let db_item := new_curriculum_item db newsletter_id item in
  let db := add_curriculum_item db db_item in
  let '(rows, db) := query_newsletters db in
  match first (fun n => Newsletter.id n =? newsletter_id) rows with
  | None => (Raise AttributeError, db)
  | Some newsletter =>
      let '(user, db) := newsletter_user db newsletter in
      match user with
      | None => (Raise AttributeError, db)
      | Some user =>
          let '(rows, db) := query_learning_history db in
          let existing :=
            first (same_topic (User.id user)
                     (CurriculumItemSchema.subject item)
                     (CurriculumItemSchema.topic item)) rows in
          match existing with
          | Some _ => (Ok tt, db)
          | None =>
              let '(ef, interval, reps, next_review) :=
                initialize_topic today
                  (Some (CurriculumItemSchema.start_date item)) in
              let learning_history :=
                new_learning_history db user item ef interval reps
                  next_review in
              (Ok tt, add_learning_history db learning_history)
          end
      end
  end.

Fixpoint add_curriculum_items_loop (today : date) (db : Db)
    (newsletter_id : Z) (items : list CurriculumItemSchema.t)
  : result unit * Db :=
  match items with
  | [] => (Ok tt, db)
  | item :: items' =>
      match add_curriculum_items_body today db newsletter_id item with
      | (Ok _, db) => add_curriculum_items_loop today db newsletter_id items'
      | (Raise e, db) => (Raise e, db)
      end
  end.

Definition add_curriculum_items (today : date) (db : Db)
    (newsletter_id : Z) (items : list CurriculumItemSchema.t)
  : result unit * Db :=
  match add_curriculum_items_loop today db newsletter_id items with
  | (Ok _, db) => (Ok tt, commit db)
  | (Raise e, db) => (Raise e, db)
  end.

(** The [LearningHistory] rows a query of this session reads. *)
Definition visible_learning_history (db : Db) : list LearningHistory.t :=
  fst (query_learning_history db).

Definition visible_newsletters (db : Db) : list Newsletter.t :=
  fst (query_newsletters db).

Definition visible_users (db : Db) : list User.t :=
  fst (query_users db).

(** The user a newsletter key leads to, as the loop of [add_curriculum_items]
    finds it. *)
Definition owner (db : Db) (newsletter_id : Z) : option User.t :=
  match first (fun n => Newsletter.id n =? newsletter_id)
              (visible_newsletters db) with
  | None => None
  | Some newsletter =>
      match Newsletter.user_id newsletter with
      | None => None
      | Some uid => first (fun u => User.id u =? uid) (visible_users db)
      end
  end.

(** The session after the item's row was added and the lookups of the loop
    body have run. *)
Definition looked_up (db : Db) (newsletter_id : Z)
    (item : CurriculumItemSchema.t) : Db :=
  flush_for_query
    (add_curriculum_item db (new_curriculum_item db newsletter_id item)).

(** ** The ladder scenario of the specification

    Review after review with the same quality, each starting from the state
    the previous one returned; the result lists the easiness factor and the
    interval returned by every review. *)
Fixpoint review_ladder (today : date) (ef : float) (interval repetitions : Z)
    (quality : Z) (dates : list (option date)) : result (list (float * Z)) :=
  match dates with
  | [] => Ok []
  | d :: dates' =>
      '(ef', interval', repetitions', _) <-
        calculate_next_review today ef interval repetitions (Some quality) d ;;
      rest <- review_ladder today ef' interval' repetitions' quality dates' ;;
      Ok ((ef', interval') :: rest)
  end.

(** ** The recompute as the specification words it

    Section 4.1 of the specification, step by step, as a total function: an
    integer enters the arithmetic as the float nearest to it, [max] and
    [round] are the operations of that name. *)

Module Spec.

(** An [int] operand of a float operation. *)
Definition to_float (n : Z) : float := binary_normalize prec emax n 0 false.

(** [round(x)]; the specification knows no error, so the value on an infinity
    or a NaN is an arbitrary integer. *)
Definition nearest (x : float) : Z :=
  match round x with
  | Ok n => n
  | Raise _ => 0
  end.

(** Step 1 *)
Definition delta (quality : Z) : float :=
  sub f0_1 (mul (to_float (5 - quality))
                (add f0_08 (mul (to_float (5 - quality)) f0_02))).

(** Step 2 *)
Definition newEF (easinessFactor : float) (quality : Z) : float :=
  max f1_3 (add easinessFactor (delta quality)).

(** Steps 3 and 4 *)
Definition newRepetitions (repetitions quality : Z) : Z :=
  if quality <? 3 then 0 else repetitions + 1.

Definition newInterval (easinessFactor : float) (interval repetitions : Z)
    (quality : Z) : Z :=
  if quality <? 3 then 1
  else if newRepetitions repetitions quality =? 1 then 1
  else if newRepetitions repetitions quality =? 2 then 6
  else nearest (mul (to_float interval) (newEF easinessFactor quality)).

(** Step 5 and the returned tuple *)
Definition recompute (easinessFactor : float) (interval repetitions : Z)
    (quality : Z) (referenceDate : date) : float * Z * Z * date :=
  (newEF easinessFactor quality,
   newInterval easinessFactor interval repetitions quality,
   newRepetitions repetitions quality,
   add_days referenceDate
     (newInterval easinessFactor interval repetitions quality)).

End Spec.

(** ** Parts of [calculate_next_review]

    Lines 32 to 36 of [sm2.py] on their own: the easiness factor the call
    works with from there on. *)
Definition new_easiness_factor (easiness_factor : float) (q : Z)
  : result float :=
  t <- int_mul (5 - q) f0_02 ;;
  u <- int_mul (5 - q) (add f0_08 t) ;;
  let new_ef := add easiness_factor (sub f0_1 u) in
  Ok (if ltb new_ef f1_3 then f1_3 else new_ef).


(** ** The number a float stands for

    [m * 2^e] as a rational, and the value of a float (0 for what is not a
    finite number); used to state how far a rounded result is from the exact
    one. *)
Definition F2Q (m e : Z) : Q := (inject_Z m * 2 ^ e)%Q.

Definition value (x : float) : Q :=
  match x with
  | S754_finite s m e => F2Q (cond_Zopp s (Zpos m)) e
  | _ => 0%Q
  end.

(** [1 - 2^-52], the least ratio of a rounded positive number in the normal
    range to the exact one that the lemmas below need. *)
Definition one_minus_ulp : Q := 4503599627370495 # 4503599627370496.

(** ** Sample data

    A user with one topic, initialised on day 1 and so due on day 2, in a
    freshly opened session; and an empty database. *)
Definition fractions : LearningHistory.t :=
  {| LearningHistory.id := 1;
     LearningHistory.user_id := 1;
     LearningHistory.subject := "Math";
     LearningHistory.topic := "Fractions";
     LearningHistory.easiness_factor := f2_5;
     LearningHistory.interval := 1;
     LearningHistory.repetitions := 0;
     LearningHistory.last_reviewed := None;
     LearningHistory.next_review := 2 |}.

Definition one_topic : Tables :=
  {| users := [ {| User.id := 1; User.name := "Asha" |} ];
     newsletters := [ {| Newsletter.id := 1; Newsletter.user_id := Some 1;
                         Newsletter.month := "January";
                         Newsletter.year := 2024 |} ];
     curriculum_items := [];
     learning_history := [fractions];
     study_sessions := [] |}.

Definition open_session (t : Tables) : Db :=
  {| autoflush := true; stored := t; live := t; added := no_rows |}.

Definition fractions_again : CurriculumItemSchema.t :=
  {| CurriculumItemSchema.subject := "Math";
     CurriculumItemSchema.topic := "Fractions";
     CurriculumItemSchema.start_date := 40;
     CurriculumItemSchema.end_date := None |}.

Definition decimals : CurriculumItemSchema.t :=
  {| CurriculumItemSchema.subject := "Math";
     CurriculumItemSchema.topic := "Decimals";
     CurriculumItemSchema.start_date := 47;
     CurriculumItemSchema.end_date := Some 53 |}.

(** ** The invariants of a memory state

    What the data model asks of the three SM-2 columns of a row: an easiness
    factor that is a float of at least 1.3, an interval of at least one day,
    and a repetition count that is not negative. *)
Definition valid_state (easiness_factor : float) (interval repetitions : Z)
  : bool :=
  is_float easiness_factor && geb easiness_factor f1_3
  && (1 <=? interval) && (0 <=? repetitions).

Definition valid_row (x : LearningHistory.t) : bool :=
  valid_state (LearningHistory.easiness_factor x) (LearningHistory.interval x)
    (LearningHistory.repetitions x).

(** ** backend/crud/learning_history.py, continued

    [update_topic_review] reads the clock twice, for the recompute and for
    [last_reviewed]; both readings are the one [today] of the model. *)
Definition update_topic_review (today : date) (db : Db)
    (learning_history_id : Z) (quality : option Z) : result unit * Db :=
  let '(rows, db) := query_learning_history db in
  match first (has_id learning_history_id) rows with
  | Some lh =>
      match calculate_next_review today
              (LearningHistory.easiness_factor lh)
              (LearningHistory.interval lh)
              (LearningHistory.repetitions lh)
              quality None with
      | Raise e => (Raise e, db)
      | Ok (new_ef, new_interval, new_reps, next_review) =>
          let db :=
            write_learning_history db
              (reviewed lh new_ef new_interval new_reps today next_review) in
          (Ok tt, commit db)
      end
  | None => (Ok tt, db)
  end.

(** ** backend/crud/study_session.py, continued *)

Definition query_study_sessions (db : Db) : list StudySession.t * Db :=
  let db := flush_for_query db in (study_sessions (live db), db).

(** [ORDER BY session_date DESC].  SQL leaves the order of rows with equal
    dates open; the model keeps them in table order. *)
Fixpoint insert_by_date_desc (s : StudySession.t) (l : list StudySession.t)
  : list StudySession.t :=
  match l with
  | [] => [s]
  | x :: l' =>
      if StudySession.session_date s <? StudySession.session_date x
      then x :: insert_by_date_desc s l'
      else s :: x :: l'
  end.

Definition order_by_session_date_desc (l : list StudySession.t)
  : list StudySession.t :=
  fold_right insert_by_date_desc [] l.

(** [LIMIT n].  What a negative [n] does is the database engine's affair
    (SQLite reads it as no limit, which is what is written here); the
    properties of [get_study_sessions] are stated for [0 <= n]. *)
Definition limit_rows {A : Type} (n : Z) (l : list A) : list A :=
  if n <? 0 then l else firstn (Z.to_nat n) l.

(** The default of the [limit] parameter. *)
Definition default_limit : Z := 50.

Definition get_study_sessions (db : Db) (user_id : Z) (limit : Z)
  : list StudySession.t * Db :=
  let '(rows, db) := query_study_sessions db in
  (limit_rows limit
     (order_by_session_date_desc
        (filter (fun s => StudySession.user_id s =? user_id) rows)),
   db).

Definition get_sessions_by_date (db : Db) (user_id : Z) (session_date : date)
  : list StudySession.t * Db :=
  let '(rows, db) := query_study_sessions db in
  (filter (fun s => (StudySession.user_id s =? user_id)
                    && (StudySession.session_date s =? session_date)) rows,
   db).

(** ** backend/crud/newsletter.py, continued

    Of the four fields of the upload schema the model of the [newsletters]
    table keeps three; [file_path] has no column in it. *)
Module NewsletterUpload.
Record t : Type :=
  { user_id : Z; month : string; year : Z; file_path : string }.
End NewsletterUpload.

Definition add_newsletter (db : Db) (n : Newsletter.t) : Db :=
  {| autoflush := autoflush db; stored := stored db; live := live db;
     added :=
       {| users := users (added db);
          newsletters := newsletters (added db) ++ [n];
          curriculum_items := curriculum_items (added db);
          learning_history := learning_history (added db);
          study_sessions := study_sessions (added db) |} |}.

Definition create_newsletter (db : Db) (newsletter : NewsletterUpload.t)
  : Newsletter.t * Db :=
  let db_newsletter :=
    {| Newsletter.id :=
         next_id (map Newsletter.id (newsletters (session_rows db)));
       Newsletter.user_id := Some (NewsletterUpload.user_id newsletter);
       Newsletter.month := NewsletterUpload.month newsletter;
       Newsletter.year := NewsletterUpload.year newsletter |} in
  let db := add_newsletter db db_newsletter in
  let db := commit db in
  (db_newsletter, db).

(** ** backend/crud/curriculum.py *)

Definition query_curriculum_items (db : Db) : list CurriculumItem.t * Db :=
  let db := flush_for_query db in (curriculum_items (live db), db).

(** A comparison with a column that may be NULL holds only on a value. *)
Definition column_eqb (column : option Z) (v : Z) : bool :=
  match column with
  | Some x => x =? v
  | None => false
  end.

Definition get_current_curriculum (db : Db) (user_id : Z) (current_date : date)
  : list CurriculumItem.t * Db :=
  let '(rows, db) := query_newsletters db in
  let newsletters :=
    filter (fun n => column_eqb (Newsletter.user_id n) user_id) rows in
  let newsletter_ids := map Newsletter.id newsletters in
  let '(rows, db) := query_curriculum_items db in
  (filter (fun c =>
             existsb (Z.eqb (CurriculumItem.newsletter_id c)) newsletter_ids
             && (CurriculumItem.start_date c <=? current_date)
             && match CurriculumItem.end_date c with
                | Some e => current_date <=? e
                | None => true
                end) rows,
   db).

(** ** Reading rows of the curriculum tables

    What identifies a topic of a user in [learning_history], and the fields
    of a [curriculum_items] row that came from the schema object (what
    [model_dump] gave). *)
Definition topic_key (x : LearningHistory.t) : Z * string * string :=
  (LearningHistory.user_id x, LearningHistory.subject x,
   LearningHistory.topic x).

Definition item_of (c : CurriculumItem.t) : CurriculumItemSchema.t :=
  {| CurriculumItemSchema.subject := CurriculumItem.subject c;
     CurriculumItemSchema.topic := CurriculumItem.topic c;
     CurriculumItemSchema.start_date := CurriculumItem.start_date c;
     CurriculumItemSchema.end_date := CurriculumItem.end_date c |}.

(** The row [initialize_topic] and the loop of [add_curriculum_items] give a
    topic that is not tracked yet. *)
Definition initial_row (user_id : Z) (item : CurriculumItemSchema.t)
    (x : LearningHistory.t) : Prop :=
  topic_key x = (user_id, CurriculumItemSchema.subject item,
                 CurriculumItemSchema.topic item)
  /\ LearningHistory.easiness_factor x = f2_5
  /\ LearningHistory.interval x = 1
  /\ LearningHistory.repetitions x = 0
  /\ LearningHistory.last_reviewed x = None
  /\ LearningHistory.next_review x
     = add_days (CurriculumItemSchema.start_date item) 1.

(** * Properties *)

(** ** The session model *)

Lemma append_tables_no_rows (t : Tables) : append_tables t no_rows = t.
Proof.
  destruct t; unfold append_tables; simpl.
  now rewrite !app_nil_r.
Qed.

Lemma session_rows_flush (db : Db) : session_rows (flush db) = session_rows db.
Proof.
  unfold session_rows, flush; simpl.
  apply append_tables_no_rows.
Qed.

Lemma session_rows_flush_for_query (db : Db) :
  session_rows (flush_for_query db) = session_rows db.
Proof.
  unfold flush_for_query.
  destruct (autoflush db); [apply session_rows_flush | reflexivity].
Qed.

Lemma stored_flush_for_query (db : Db) : stored (flush_for_query db) = stored db.
Proof. unfold flush_for_query; now destruct (autoflush db). Qed.

Lemma autoflush_flush_for_query (db : Db) :
  autoflush (flush_for_query db) = autoflush db.
Proof.
  unfold flush_for_query.
  destruct (autoflush db) eqn:E; [exact E | exact E].
Qed.

Lemma stored_commit (db : Db) : stored (commit db) = session_rows db.
Proof. reflexivity. Qed.

Lemma visible_after_add_study_session (db : Db) (s : StudySession.t) :
  visible_learning_history (add_study_session db s) = visible_learning_history db.
Proof.
  unfold visible_learning_history, query_learning_history, flush_for_query.
  simpl. now destruct (autoflush db).
Qed.

Lemma visible_incl_session_rows (db : Db) (x : LearningHistory.t) :
  In x (visible_learning_history db) -> In x (learning_history (session_rows db)).
Proof.
  unfold visible_learning_history, query_learning_history, flush_for_query.
  simpl. destruct (autoflush db); simpl; intros H.
  - exact H.
  - apply in_or_app; now left.
Qed.

Lemma first_none_iff {A : Type} (p : A -> bool) (l : list A) :
  first p l = None <-> forall x, In x l -> p x = false.
Proof.
  unfold first. split.
  - intros H x Hx. now apply (find_none p l H).
  - induction l as [|a l IH]; simpl; intros H; [reflexivity|].
    rewrite (H a (or_introl eq_refl)). apply IH.
    intros x Hx. apply H. now right.
Qed.

Lemma first_some {A : Type} (p : A -> bool) (l : list A) (a : A) :
  first p l = Some a -> In a l /\ p a = true.
Proof. apply find_some. Qed.


Lemma update_first_length {A : Type} (p : A -> bool) (a' : A) (l : list A) :
  List.length (update_first p a' l) = List.length l.
Proof.
  induction l as [|x l IH]; simpl; [reflexivity|].
  destruct (p x); simpl; [reflexivity | now rewrite IH].
Qed.

(** Rows that [p] rejects are left alone by [update_first]. *)
Lemma update_first_other {A : Type} (p : A -> bool) (a' : A) (l : list A) (y : A) :
  p y = false -> In y l -> In y (update_first p a' l).
Proof.
  intros Hy. induction l as [|x l IH]; simpl; [easy|].
  intros [Hx|Hin].
  - subst x. rewrite Hy. now left.
  - destruct (p x); right; auto.
Qed.

(** ** The ladder at quality 4 *)

(** C2, as amended.  From easiness factor 2.5, interval 1 and no repetition,
    five reviews at quality 4 leave the easiness factor at 2.5 every time and
    return the intervals 1, 6, 15, 38 and 95, whatever the reference dates. *)
Theorem ladder_quality_4 (today : date) (d1 d2 d3 d4 d5 : option date) :
  review_ladder today f2_5 1 0 4 [d1; d2; d3; d4; d5]
  = Ok [(f2_5, 1); (f2_5, 6); (f2_5, 15); (f2_5, 38); (f2_5, 95)].
Proof. reflexivity. Qed.

(** C2, as stated, fails: the fifth interval is [round(38 * 2.5) = 95], so no
    run of the ladder returns 1, 6, 15, 38, 94. *)
Lemma ladder_quality_4_fifth_is_not_94 :
  ~ exists l,
      review_ladder 0 f2_5 1 0 4 [Some 1; Some 2; Some 8; Some 23; Some 61] = Ok l
      /\ map fst l = [f2_5; f2_5; f2_5; f2_5; f2_5]
      /\ map snd l = [1; 6; 15; 38; 94].
Proof.
  intros [l [Hrun [_ Hintervals]]].
  vm_compute in Hrun.
  injection Hrun as <-. discriminate Hintervals.
Qed.

(** ** Recording a session *)

Section RecordStudySession.

Variable today : date.
Variables (db : Db) (user_id learning_history_id : Z).
Variables (session_date : date) (session_type : string).
Variables (quality_rating : option Z) (notes : option string).

Local Abbreviation session :=
  (new_study_session db user_id learning_history_id session_date
     session_type quality_rating notes).

Local Ltac run_to_lookup H :=
  rewrite <- (visible_after_add_study_session db session) in H;
  unfold record_study_session;
  unfold visible_learning_history in H;
  unfold query_learning_history in *; simpl in H; rewrite H.

(** Without a row to update the call commits the session and nothing
    else. *)
Lemma record_study_session_no_history :
  first (has_id learning_history_id) (visible_learning_history db) = None ->
  record_study_session today db user_id learning_history_id session_date
    session_type quality_rating notes
  = (Ok session, commit (flush_for_query (add_study_session db session))).
Proof. intros Hnone. now run_to_lookup Hnone. Qed.

(** With a row and a recompute that raises, the exception leaves the call
    before the commit. *)
Lemma record_study_session_raise (lh : LearningHistory.t) (e : exn) :
  first (has_id learning_history_id) (visible_learning_history db) = Some lh ->
  calculate_next_review today (LearningHistory.easiness_factor lh)
    (LearningHistory.interval lh) (LearningHistory.repetitions lh)
    quality_rating (Some session_date) = Raise e ->
  record_study_session today db user_id learning_history_id session_date
    session_type quality_rating notes
  = (Raise e, flush_for_query (add_study_session db session)).
Proof. intros Hsome Hcalc. run_to_lookup Hsome. now rewrite Hcalc. Qed.

(** With a row and a recompute that returns, the row is overwritten and
    both records are committed. *)
Lemma record_study_session_update (lh : LearningHistory.t) (new_ef : float)
    (new_interval new_reps : Z) (next_review : date) :
  first (has_id learning_history_id) (visible_learning_history db) = Some lh ->
  calculate_next_review today (LearningHistory.easiness_factor lh)
    (LearningHistory.interval lh) (LearningHistory.repetitions lh)
    quality_rating (Some session_date)
  = Ok (new_ef, new_interval, new_reps, next_review) ->
  record_study_session today db user_id learning_history_id session_date
    session_type quality_rating notes
  = (Ok session,
     commit
       (write_learning_history
          (flush_for_query (add_study_session db session))
          (reviewed lh new_ef new_interval new_reps session_date
             next_review))).
Proof. intros Hsome Hcalc. run_to_lookup Hsome. now rewrite Hcalc. Qed.

End RecordStudySession.

(** C4, as amended.  When [learning_history_id] refers to no [LearningHistory]
    row, [record_study_session] raises nothing: it returns the session it
    built, that session is committed, and no [LearningHistory] row is
    touched. *)
Theorem record_study_session_missing_history
    (today : date) (db : Db) (user_id learning_history_id : Z)
    (session_date : date) (session_type : string)
    (quality_rating : option Z) (notes : option string) :
  (forall x, In x (visible_learning_history db) ->
             LearningHistory.id x <> learning_history_id) ->
  let s := new_study_session db user_id learning_history_id session_date
             session_type quality_rating notes in
  let r := record_study_session today db user_id learning_history_id
             session_date session_type quality_rating notes in
  fst r = Ok s
  /\ study_sessions (stored (snd r)) = study_sessions (session_rows db) ++ [s]
  /\ learning_history (stored (snd r)) = learning_history (session_rows db).
Proof.
  intros Hmissing s r.
  assert (Hnone : first (has_id learning_history_id)
                        (visible_learning_history db) = None).
  { apply first_none_iff. intros x Hx. unfold has_id.
    apply Z.eqb_neq. now apply Hmissing. }
  subst r.
  rewrite (record_study_session_no_history today db user_id learning_history_id
             session_date session_type quality_rating notes Hnone).
  fold s. cbn [fst snd].
  rewrite stored_commit, session_rows_flush_for_query.
  repeat split.
  unfold session_rows. simpl. now rewrite app_assoc.
Qed.

Lemma record_study_session_missing_history_witness :
  let r := record_study_session 0 (open_session no_rows) 1 1 10 "review"
             (Some 4) None in
  fst r = Ok (new_study_session (open_session no_rows) 1 1 10 "review"
                (Some 4) None)
  /\ study_sessions (stored (snd r))
     = [new_study_session (open_session no_rows) 1 1 10 "review" (Some 4) None]
  /\ learning_history (stored (snd r)) = [].
Proof.
  apply (record_study_session_missing_history 0 (open_session no_rows) 1 1 10
           "review" (Some 4) None).
  intros x Hx. vm_compute in Hx. contradiction.
Defined.

(** C4, as stated, fails: on an empty database the call does not raise and
    the session is in the committed table afterwards. *)
Lemma record_study_session_missing_history_not_rejected :
  let r := record_study_session 0 (open_session no_rows) 1 1 10 "review"
             (Some 4) None in
  ~ raises (fst r)
  /\ study_sessions (stored (snd r))
     <> study_sessions (stored (open_session no_rows)).
Proof.
  split.
  - intros [e He]. vm_compute in He. discriminate He.
  - vm_compute. discriminate.
Qed.




(** Whatever the session type, a call without a rating on an existing row
    hands [None] to [calculate_next_review], whose [5 - quality] raises
    [TypeError]; the commit is not reached. *)
Lemma record_study_session_without_rating
    (today : date) (db : Db) (user_id learning_history_id : Z)
    (session_date : date) (session_type : string) (notes : option string)
    (lh : LearningHistory.t) :
  first (has_id learning_history_id) (visible_learning_history db) = Some lh ->
  let r := record_study_session today db user_id learning_history_id
             session_date session_type None notes in
  fst r = Raise TypeError /\ stored (snd r) = stored db.
Proof.
  intros Hsome r. subst r.
  rewrite (record_study_session_raise today db user_id learning_history_id
             session_date session_type None notes lh TypeError Hsome eq_refl).
  split; [reflexivity|]. cbn [snd].
  now rewrite stored_flush_for_query.
Qed.

(** C6, on the code.  A "study" session recorded without a rating for the
    sample topic raises [TypeError] and commits nothing, whereas the same call
    with the rating 4 returns and commits the recomputed row (easiness factor
    2.5, interval 1, one repetition, next review the day after the
    session). *)
Theorem study_session_without_rating_raises :
  let absent := record_study_session 0 (open_session one_topic) 1 1 2
                  "study" None None in
  let rated_4 := record_study_session 0 (open_session one_topic) 1 1 2
                   "study" (Some default_quality) None in
  fst absent = Raise TypeError
  /\ stored (snd absent) = one_topic
  /\ ~ raises (fst rated_4)
  /\ learning_history (stored (snd rated_4)) = [reviewed fractions f2_5 1 1 2 3].
Proof.
  repeat split; try reflexivity.
  intros [e He]. vm_compute in He. discriminate He.
Qed.

(** ** Introducing topics *)

Lemma flush_for_query_idempotent (db : Db) :
  flush_for_query (flush_for_query db) = flush_for_query db.
Proof.
  unfold flush_for_query.
  destruct (autoflush db) eqn:E; [|now rewrite E].
  cbn [autoflush flush]. rewrite E.
  unfold flush; simpl. now rewrite append_tables_no_rows.
Qed.

Lemma visible_after_add_curriculum_item (db : Db) (c : CurriculumItem.t) :
  visible_learning_history (add_curriculum_item db c) = visible_learning_history db
  /\ visible_newsletters (add_curriculum_item db c) = visible_newsletters db
  /\ visible_users (add_curriculum_item db c) = visible_users db.
Proof.
  unfold visible_learning_history, visible_newsletters, visible_users,
    query_learning_history, query_newsletters, query_users, flush_for_query.
  simpl. now destruct (autoflush db).
Qed.

Lemma visible_after_flush_for_query (db : Db) :
  visible_learning_history (flush_for_query db) = visible_learning_history db
  /\ visible_newsletters (flush_for_query db) = visible_newsletters db
  /\ visible_users (flush_for_query db) = visible_users db.
Proof.
  unfold visible_learning_history, visible_newsletters, visible_users,
    query_learning_history, query_newsletters, query_users.
  now rewrite flush_for_query_idempotent.
Qed.

Lemma visible_after_add_learning_history (db : Db) (l : LearningHistory.t) :
  visible_newsletters (add_learning_history db l) = visible_newsletters db
  /\ visible_users (add_learning_history db l) = visible_users db.
Proof.
  unfold visible_newsletters, visible_users, query_newsletters, query_users,
    flush_for_query.
  simpl. now destruct (autoflush db).
Qed.

Section AddCurriculumItems.

Variable today : date.
Variable newsletter_id : Z.

Lemma add_curriculum_items_body_run (db : Db) (user : User.t)
    (item : CurriculumItemSchema.t) :
  owner db newsletter_id = Some user ->
  add_curriculum_items_body today db newsletter_id item
  = match first (same_topic (User.id user)
                   (CurriculumItemSchema.subject item)
                   (CurriculumItemSchema.topic item))
                (visible_learning_history db) with
    | Some _ => (Ok tt, looked_up db newsletter_id item)
    | None =>
        (Ok tt,
         add_learning_history (looked_up db newsletter_id item)
           (new_learning_history (looked_up db newsletter_id item) user item f2_5 1 0
              (add_days (CurriculumItemSchema.start_date item) 1)))
    end.
Proof.
  intros Howner.
  pose proof (visible_after_add_curriculum_item db
                (new_curriculum_item db newsletter_id item)) as [Hh [Hn Hu]].
  unfold owner in Howner. rewrite <- Hh. rewrite <- Hn, <- Hu in Howner.
  unfold add_curriculum_items_body, looked_up.
  set (db0 := add_curriculum_item db (new_curriculum_item db newsletter_id item)) in *.
  unfold visible_newsletters, visible_users, visible_learning_history in *.
  unfold query_newsletters in *. cbn [fst] in Howner.
  destruct (first (fun n => Newsletter.id n =? newsletter_id)
              (newsletters (live (flush_for_query db0)))) as [nl|];
    [|discriminate].
  unfold newsletter_user.
  destruct (Newsletter.user_id nl) as [uid|]; [|discriminate].
  unfold query_users in *. cbn [fst] in Howner.
  rewrite flush_for_query_idempotent, Howner.
  unfold query_learning_history. cbn [fst].
  rewrite flush_for_query_idempotent.
  destruct (first _ (learning_history (live (flush_for_query db0))));
    reflexivity.
Qed.

Lemma owner_after_body (db : Db) (user : User.t)
    (item : CurriculumItemSchema.t) :
  owner db newsletter_id = Some user ->
  owner (snd (add_curriculum_items_body today db newsletter_id item))
        newsletter_id = Some user.
Proof.
  intros Howner.
  rewrite (add_curriculum_items_body_run db user item Howner).
  pose proof (visible_after_add_curriculum_item db
                (new_curriculum_item db newsletter_id item)) as [_ [Hn Hu]].
  pose proof (visible_after_flush_for_query
                (add_curriculum_item db
                   (new_curriculum_item db newsletter_id item)))
    as [_ [Hn' Hu']].
  fold (looked_up db newsletter_id item) in Hn', Hu'.
  destruct (first _ (visible_learning_history db)); cbn [snd];
    unfold owner in *.
  - now rewrite Hn', Hu', Hn, Hu.
  - destruct (visible_after_add_learning_history (looked_up db newsletter_id item)
                (new_learning_history (looked_up db newsletter_id item) user item f2_5 1 0
                   (add_days (CurriculumItemSchema.start_date item) 1)))
      as [Hn'' Hu''].
    now rewrite Hn'', Hu'', Hn', Hu', Hn, Hu.
Qed.

(** The loop runs to its end as soon as the newsletter has an owner. *)
Lemma add_curriculum_items_loop_runs (items : list CurriculumItemSchema.t) :
  forall (db : Db) (user : User.t),
    owner db newsletter_id = Some user ->
    fst (add_curriculum_items_loop today db newsletter_id items) = Ok tt
    /\ owner (snd (add_curriculum_items_loop today db newsletter_id items))
             newsletter_id = Some user.
Proof.
  induction items as [|item items IH]; intros db user Howner.
  - now split.
  - cbn [add_curriculum_items_loop].
    pose proof (owner_after_body db user item Howner) as Hnext.
    rewrite (add_curriculum_items_body_run db user item Howner) in *.
    destruct (first _ (visible_learning_history db)); cbn [snd] in Hnext;
      now apply IH.
Qed.


End AddCurriculumItems.

Lemma visible_with_autoflush (db : Db) :
  autoflush db = true ->
  visible_learning_history db = learning_history (session_rows db).
Proof.
  intros E.
  unfold visible_learning_history, query_learning_history, flush_for_query.
  now rewrite E.
Qed.

Lemma add_curriculum_items_commits (today : date) (db : Db) (newsletter_id : Z)
    (items : list CurriculumItemSchema.t) :
  fst (add_curriculum_items_loop today db newsletter_id items) = Ok tt ->
  add_curriculum_items today db newsletter_id items
  = (Ok tt,
     commit (snd (add_curriculum_items_loop today db newsletter_id items))).
Proof.
  unfold add_curriculum_items.
  destruct (add_curriculum_items_loop today db newsletter_id items)
    as [[[]|e] db1]; [reflexivity | discriminate].
Qed.



(** ** Due topics *)

Lemma filter_nothing {A : Type} (p : A -> bool) (l : list A) :
  (forall x, In x l -> p x = false) -> filter p l = [].
Proof.
  induction l as [|x l IH]; intros H; [reflexivity|].
  simpl. rewrite (H x (or_introl eq_refl)).
  apply IH. intros y Hy. apply H. now right.
Qed.

(** C8.  With [today] the date the query is made on, [get_due_topics] returns
    the rows of the user whose [next_review] is not after [today], all of
    them and nothing else, in table order; it leaves the committed tables and
    the rows of the session as they were; and for a user without rows it
    returns the empty list. *)
Theorem get_due_topics_exact (today : date) (db : Db) (user_id : Z) :
  let r := get_due_topics today db user_id in
  fst r = filter (fun x => (LearningHistory.user_id x =? user_id)
                           && (LearningHistory.next_review x <=? today))
                 (visible_learning_history db)
  /\ (forall x, In x (fst r) <->
                In x (visible_learning_history db)
                /\ LearningHistory.user_id x = user_id
                /\ LearningHistory.next_review x <= today)
  /\ stored (snd r) = stored db
  /\ session_rows (snd r) = session_rows db
  /\ ((forall x, In x (visible_learning_history db) ->
                 LearningHistory.user_id x <> user_id) ->
      fst r = []).
Proof.
  intros r.
  assert (Hfst : fst r = filter (fun x => (LearningHistory.user_id x =? user_id)
                                          && (LearningHistory.next_review x <=? today))
                                (visible_learning_history db)) by reflexivity.
  split; [exact Hfst|]. split; [|split; [|split]].
  - intros x. rewrite Hfst, filter_In, andb_true_iff, Z.eqb_eq, Z.leb_le.
    tauto.
  - apply stored_flush_for_query.
  - apply session_rows_flush_for_query.
  - intros Hnone. rewrite Hfst. apply filter_nothing.
    intros x Hx. apply andb_false_iff. left.
    apply Z.eqb_neq. now apply Hnone.
Qed.

Lemma get_due_topics_exact_witness :
  fst (get_due_topics 2 (open_session one_topic) 1) = [fractions]
  /\ fst (get_due_topics 1 (open_session one_topic) 1) = []
  /\ fst (get_due_topics 2 (open_session one_topic) 7) = [].
Proof.
  destruct (get_due_topics_exact 2 (open_session one_topic) 1) as [H1 _].
  destruct (get_due_topics_exact 1 (open_session one_topic) 1) as [H2 _].
  destruct (get_due_topics_exact 2 (open_session one_topic) 7) as (_ & _ & _ & _ & H3).
  split; [exact H1|]. split; [exact H2|].
  apply H3. intros x Hx Hu. vm_compute in Hx.
  destruct Hx as [Hx|[]]. subst x. discriminate Hu.
Defined.

(** ** Binary64 rounding *)

Lemma shr_1_m (mrs : shr_record) :
  0 <= shr_m mrs -> shr_m (shr_1 mrs) = shr_m mrs / 2.
Proof.
  destruct mrs as [m r s]. cbn [shr_m]. intros Hm.
  destruct m as [|p|p]; [reflexivity| |lia].
  destruct p as [p|p|]; cbn [shr_1 shr_m].
  - rewrite Pos2Z.inj_xI.
    apply (Z.div_unique _ _ _ 1); lia.
  - rewrite Pos2Z.inj_xO.
    apply (Z.div_unique _ _ _ 0); lia.
  - reflexivity.
Qed.

Lemma iter_shr_1_m (p : positive) :
  forall mrs, 0 <= shr_m mrs ->
              shr_m (iter_pos shr_1 p mrs) = shr_m mrs / 2 ^ Zpos p.
Proof.
  assert (Hhalf : forall mrs, 0 <= shr_m mrs -> 0 <= shr_m (shr_1 mrs)).
  { intros mrs H. rewrite shr_1_m by exact H. apply Z.div_pos; lia. }
  induction p as [p IH|p IH|]; intros mrs Hm; cbn [iter_pos].
  - assert (H1 := Hhalf mrs Hm).
    assert (H2 : 0 <= shr_m (iter_pos shr_1 p (shr_1 mrs))).
    { rewrite IH by exact H1. apply Z.div_pos; lia. }
    rewrite IH by exact H2. rewrite IH by exact H1.
    rewrite shr_1_m by exact Hm.
    rewrite !Z.div_div by lia.
    f_equal.
    replace (Z.pos p~1) with (1 + Z.pos p + Z.pos p) by lia.
    rewrite !Z.pow_add_r by lia. change (2 ^ 1) with 2. lia.
  - assert (H2 : 0 <= shr_m (iter_pos shr_1 p mrs)).
    { rewrite IH by exact Hm. apply Z.div_pos; lia. }
    rewrite IH by exact H2. rewrite IH by exact Hm.
    rewrite !Z.div_div by lia.
    f_equal.
    replace (Z.pos p~0) with (Z.pos p + Z.pos p) by lia.
    rewrite Z.pow_add_r by lia. lia.
  - rewrite shr_1_m by exact Hm. reflexivity.
Qed.

(** A right shift by [n] places divides the mantissa by [2^n] and raises the
    exponent by [n]; a shift by nothing or less does nothing. *)
Lemma shr_m_e (mrs : shr_record) (e n : Z) :
  0 <= shr_m mrs ->
  shr_m (fst (shr mrs e n)) = shr_m mrs / 2 ^ Z.max 0 n
  /\ snd (shr mrs e n) = e + Z.max 0 n.
Proof.
  intros Hm. destruct n as [|p|p]; cbn [shr fst snd].
  - rewrite Z.div_1_r. split; [reflexivity | apply Zplus_0_r_reverse].
  - rewrite iter_shr_1_m by exact Hm.
    now replace (Z.max 0 (Z.pos p)) with (Z.pos p) by lia.
  - change (Z.max 0 (Z.neg p)) with 0.
    rewrite Z.div_1_r. split; [reflexivity | apply Zplus_0_r_reverse].
Qed.

Lemma shr_record_of_loc_m (m : Z) (l : location) :
  shr_m (shr_record_of_loc m l) = m.
Proof. now destruct l as [|[]]. Qed.

Lemma round_nearest_even_bounds (m : Z) (l : location) :
  m <= round_nearest_even m l <= m + 1.
Proof.
  destruct l as [|[]]; cbn [round_nearest_even]; try lia.
  destruct (Z.even m); lia.
Qed.

(** The shape of every rounding: the mantissa is cut to the precision
    ([m1]), moved up by one or not ([m2]), and cut once more if that carried
    into a further digit. *)
Lemma binary_round_aux_shape (s : bool) (m e : Z) (l : location) :
  0 <= m ->
  let k1 := Z.max 0 (fexp prec emax (Zdigits2 m + e) - e) in
  let m1 := m / 2 ^ k1 in
  exists m2,
    m1 <= m2 <= m1 + 1
    /\ (k1 = 0 -> l = loc_Exact -> m2 = m)
    /\ let k2 := Z.max 0 (fexp prec emax (Zdigits2 m2 + (e + k1)) - (e + k1)) in
       binary_round_aux prec emax s m e l
       = match m2 / 2 ^ k2 with
         | Z0 => S754_zero s
         | Zpos p => if e + k1 + k2 <=? emax - prec
                     then S754_finite s p (e + k1 + k2)
                     else S754_infinity s
         | Zneg _ => S754_nan
         end.
Proof.
  intros Hm k1 m1.
  unfold binary_round_aux, shr_fexp.
  pose proof (shr_m_e (shr_record_of_loc m l) e
                (fexp prec emax (Zdigits2 m + e) - e)) as H1.
  rewrite shr_record_of_loc_m in H1. specialize (H1 Hm).
  fold k1 in H1. fold m1 in H1.
  destruct (shr (shr_record_of_loc m l) e (fexp prec emax (Zdigits2 m + e) - e))
    as [mrs1 e1] eqn:E1.
  cbn [fst snd] in H1. destruct H1 as [Hm1 He1].
  set (m2 := round_nearest_even (shr_m mrs1) (loc_of_shr_record mrs1)).
  exists m2.
  pose proof (round_nearest_even_bounds (shr_m mrs1) (loc_of_shr_record mrs1))
    as Hb. fold m2 in Hb. rewrite Hm1 in Hb.
  assert (Hm1pos : 0 <= m1) by (apply Z.div_pos; lia).
  split; [exact Hb|]. split.
  - intros Hk Hl. subst l.
    assert (Hn : fexp prec emax (Zdigits2 m + e) - e <= 0) by lia.
    unfold shr in E1.
    destruct (fexp prec emax (Zdigits2 m + e) - e) as [|p|p]; [| lia |];
      injection E1 as <- _; reflexivity.
  - cbv zeta.
    pose proof (shr_m_e (shr_record_of_loc m2 loc_Exact) e1
                  (fexp prec emax (Zdigits2 m2 + e1) - e1)) as H2.
    rewrite shr_record_of_loc_m in H2.
    assert (Hm2 : 0 <= m2) by lia. specialize (H2 Hm2).
    destruct (shr (shr_record_of_loc m2 loc_Exact) e1
                (fexp prec emax (Zdigits2 m2 + e1) - e1)) as [mrs2 e2].
    cbn [fst snd] in H2. destruct H2 as [Hm3 He2].
    subst e1. rewrite Hm3, He2.
    reflexivity.
Qed.

Lemma binary_round_aux_not_nan (s : bool) (m e : Z) (l : location) :
  0 <= m -> binary_round_aux prec emax s m e l <> S754_nan.
Proof.
  intros Hm.
  destruct (binary_round_aux_shape s m e l Hm) as (m2 & Hb & _ & H).
  cbv zeta in H. rewrite H.
  assert (Hm1 : 0 <= m / 2 ^ Z.max 0 (fexp prec emax (Zdigits2 m + e) - e))
    by (apply Z.div_pos; lia).
  match goal with |- context [m2 / ?d] =>
    assert (Hq : 0 <= m2 / d) by (apply Z.div_pos; lia);
    destruct (m2 / d) as [|p|p]; [discriminate | | lia]
  end.
  now destruct (_ <=? _).
Qed.

Lemma binary_normalize_not_nan (m e : Z) (szero : bool) :
  binary_normalize prec emax m e szero <> S754_nan.
Proof.
  destruct m as [|p|p]; cbn [binary_normalize]; [discriminate| |];
    unfold binary_round;
    destruct (shl_align _ _ _) as [mz ez];
    apply binary_round_aux_not_nan; lia.
Qed.

(** ** Comparisons *)

Lemma SFcompare_swap (x y : float) :
  SFcompare y x = option_map CompOpp (SFcompare x y).
Proof.
  destruct x as [sx|sx| |sx mx ex], y as [sy|sy| |sy my ey]; cbn;
    try reflexivity;
    try (destruct sx; reflexivity); try (destruct sy; reflexivity);
    try (destruct sx, sy; reflexivity).
  destruct sx, sy; try reflexivity; f_equal;
    rewrite (Z.compare_antisym ex ey);
    destruct (ex ?= ey); cbn; try reflexivity.
  - now rewrite (Pos.compare_cont_antisym mx my Eq).
  - now rewrite (Pos.compare_cont_antisym mx my Eq).
Qed.

Lemma SFcompare_not_nan (x y : float) :
  is_nan x = false -> is_nan y = false -> exists c, SFcompare x y = Some c.
Proof.
  destruct x, y; cbn; intros Hx Hy; try discriminate; eauto.
Qed.

Lemma SFcompare_Eq_finite (x : float) (s : bool) (m : positive) (e : Z) :
  SFcompare x (S754_finite s m e) = Some Eq -> x = S754_finite s m e.
Proof.
  destruct x as [sx|sx| |sx mx ex]; cbn; try discriminate.
  - destruct s; discriminate.
  - destruct sx; discriminate.
  - destruct sx, s; try discriminate; intros H; injection H as H;
      destruct (ex ?= e) eqn:E; try discriminate;
      apply Z.compare_eq in E; subst ex.
    + destruct (Pos.compare_cont Eq mx m) eqn:E'; try discriminate.
      apply Pos.compare_eq in E'. now subst.
    + apply Pos.compare_eq in H. now subst.
Qed.

(** What the two lines [if new_ef < 1.3: new_ef = 1.3] leave is at least
    1.3, as long as [new_ef] is a number. *)
Lemma clamp_floor (x : float) :
  is_nan x = false -> geb (if ltb x f1_3 then f1_3 else x) f1_3 = true.
Proof.
  intros Hx. unfold ltb, SFltb, geb, leb, SFleb.
  destruct (SFcompare_not_nan x f1_3 Hx eq_refl) as [c Hc].
  rewrite Hc. destruct c; [| reflexivity |];
    rewrite (SFcompare_swap x f1_3), Hc; reflexivity.
Qed.

(** On a number the clamp is [max(1.3, new_ef)]. *)
Lemma clamp_is_max (x : float) :
  is_nan x = false -> (if ltb x f1_3 then f1_3 else x) = max f1_3 x.
Proof.
  intros Hx. unfold max, ltb, SFltb.
  destruct (SFcompare_not_nan x f1_3 Hx eq_refl) as [c Hc].
  rewrite (SFcompare_swap x f1_3), Hc.
  destruct c; cbn; try reflexivity.
  now apply SFcompare_Eq_finite in Hc.
Qed.

(** ** Operations that cannot produce a NaN *)

Lemma is_nan_false (x : float) : is_nan x = false <-> x <> S754_nan.
Proof. destruct x; cbn; split; congruence. Qed.

Lemma geb_not_nan (x y : float) : geb x y = true -> is_nan x = false.
Proof. destruct x, y; cbn; congruence. Qed.

Lemma add_finite_r_not_nan (x y : float) :
  is_nan x = false -> is_finite y = true -> is_nan (add x y) = false.
Proof.
  destruct x as [sx|sx| |sx mx ex], y as [sy|sy| |sy my ey]; cbn;
    try discriminate; try reflexivity; intros _ _.
  - now destruct sx, sy.
  - apply is_nan_false, binary_normalize_not_nan.
Qed.




(** A product with a factor that is finite and not zero. *)
Lemma mul_nonzero_l_not_nan (s : bool) (m : positive) (e : Z) (y : float) :
  is_nan y = false -> is_nan (mul (S754_finite s m e) y) = false.
Proof.
  destruct y as [sy|sy| |sy my ey]; cbn; try discriminate; try reflexivity.
  intros _. apply is_nan_false, binary_round_aux_not_nan. lia.
Qed.

(** ** The conversion of an [int] *)

Lemma of_int_to_float (n : Z) :
  is_finite (Spec.to_float n) = true -> of_int n = Ok (Spec.to_float n).
Proof.
  unfold of_int, Spec.to_float.
  now destruct (binary_normalize prec emax n 0 false).
Qed.



(** ** The shape of [calculate_next_review] *)

Lemma calculate_next_review_parts (today : date) (easiness_factor : float)
    (interval repetitions q : Z) (reference_date : option date) :
  calculate_next_review today easiness_factor interval repetitions (Some q)
    reference_date
  = (new_ef <- new_easiness_factor easiness_factor q ;;
     '(new_repetitions, new_interval) <-
       (if q <? 3 then Ok (0, 1)
        else if repetitions + 1 =? 1 then Ok (repetitions + 1, 1)
        else if repetitions + 1 =? 2 then Ok (repetitions + 1, 6)
        else
          p <- int_mul interval new_ef ;;
          n <- round p ;;
          Ok (repetitions + 1, n)) ;;
     Ok (new_ef, new_interval, new_repetitions,
         add_days (match reference_date with
                   | Some d => d
                   | None => today
                   end) new_interval)).
Proof.
  unfold calculate_next_review, new_easiness_factor. cbn [as_int bind].
  destruct (int_mul (5 - q) f0_02) as [t|e]; [|reflexivity]. cbn [bind].
  destruct (int_mul (5 - q) (add f0_08 t)) as [u|e]; reflexivity.
Qed.

(** Within the scale the conversions are exact and the easiness factor is
    the clamped sum of the old one and the specification's [delta]. *)
Lemma new_easiness_factor_in_scale (easiness_factor : float) (q : Z) :
  0 <= q <= 5 ->
  new_easiness_factor easiness_factor q
  = Ok (if ltb (add easiness_factor (Spec.delta q)) f1_3
        then f1_3
        else add easiness_factor (Spec.delta q))
  /\ is_finite (Spec.delta q) = true.
Proof.
  intros Hq.
  assert (Hcases : q = 0 \/ q = 1 \/ q = 2 \/ q = 3 \/ q = 4 \/ q = 5) by lia.
  unfold new_easiness_factor, Spec.delta, int_mul.
  destruct Hcases as [-> | [-> | [-> | [-> | [-> | ->]]]]];
    (split; [reflexivity | vm_compute; reflexivity]).
Qed.

(** ** The floor of the easiness factor *)

(** C3.  From an easiness factor of at least 1.3 and a quality from 0 to 5,
    every state [calculate_next_review] returns has an easiness factor of at
    least 1.3; the call returns one unless it reaches the rounding of
    [interval * new_ef] (quality 3 or more, third success or later).
    [initialize_topic] returns the easiness factor 2.5, which is at least
    1.3. *)
Theorem easiness_factor_floor (today : date) (easiness_factor : float)
    (interval repetitions quality : Z) (reference_date : option date) :
  geb easiness_factor f1_3 = true ->
  0 <= quality <= 5 ->
  match calculate_next_review today easiness_factor interval repetitions
          (Some quality) reference_date with
  | Ok (new_ef, _, _, _) => geb new_ef f1_3 = true
  | Raise _ => 3 <= quality /\ repetitions + 1 <> 1 /\ repetitions + 1 <> 2
  end
  /\ (let '(initial_ef, _, _, _) := initialize_topic today reference_date in
      initial_ef = f2_5 /\ geb initial_ef f1_3 = true).
Proof.
  intros Hef Hq. split; [|now split].
  rewrite calculate_next_review_parts.
  destruct (new_easiness_factor_in_scale easiness_factor quality Hq)
    as [Hnew Hdelta].
  rewrite Hnew. cbn [bind].
  assert (Hfloor : geb (if ltb (add easiness_factor (Spec.delta quality)) f1_3
                        then f1_3
                        else add easiness_factor (Spec.delta quality)) f1_3
                   = true).
  { apply clamp_floor, add_finite_r_not_nan; [|exact Hdelta].
    exact (geb_not_nan _ _ Hef). }
  destruct (quality <? 3) eqn:Hlapse; [exact Hfloor|].
  apply Z.ltb_ge in Hlapse.
  destruct (repetitions + 1 =? 1) eqn:H1; [exact Hfloor|].
  destruct (repetitions + 1 =? 2) eqn:H2; [exact Hfloor|].
  apply Z.eqb_neq in H1, H2.
  destruct (int_mul interval _) as [p|e]; cbn [bind]; [|now repeat split].
  destruct (round p) as [n|e]; cbn [bind]; [exact Hfloor | now repeat split].
Qed.

Lemma easiness_factor_floor_witness :
  match calculate_next_review 0 f1_3 6 2 (Some 3) (Some 10) with
  | Ok (new_ef, _, _, _) => geb new_ef f1_3 = true
  | Raise _ => 3 <= 3 /\ 2 + 1 <> 1 /\ 2 + 1 <> 2
  end
  /\ (let '(initial_ef, _, _, _) := initialize_topic 0 (Some 10) in
      initial_ef = f2_5 /\ geb initial_ef f1_3 = true).
Proof.
  apply (easiness_factor_floor 0 f1_3 6 2 3 (Some 10)); [reflexivity | lia].
Defined.

(** ** Digits *)

Lemma digits2_pos_bounds (p : positive) :
  2 ^ (Zpos (digits2_pos p) - 1) <= Zpos p < 2 ^ Zpos (digits2_pos p).
Proof.
  induction p as [p IH|p IH|]; cbn [digits2_pos]; [| |cbn; lia].
  - rewrite Pos2Z.inj_succ.
    replace (Z.succ (Zpos (digits2_pos p)) - 1)
      with (Z.succ (Zpos (digits2_pos p) - 1)) by lia.
    rewrite !Z.pow_succ_r by lia.
    replace (Zpos p~1) with (2 * Zpos p + 1) by lia. lia.
  - rewrite Pos2Z.inj_succ.
    replace (Z.succ (Zpos (digits2_pos p)) - 1)
      with (Z.succ (Zpos (digits2_pos p) - 1)) by lia.
    rewrite !Z.pow_succ_r by lia.
    replace (Zpos p~0) with (2 * Zpos p) by lia. lia.
Qed.

Lemma Zdigits2_bounds (m : Z) :
  0 < m -> 2 ^ (Zdigits2 m - 1) <= m < 2 ^ Zdigits2 m.
Proof.
  destruct m as [|p|p]; try lia. intros _. apply digits2_pos_bounds.
Qed.

Lemma Zdigits2_pos (m : Z) : 0 < m -> 0 < Zdigits2 m.
Proof. destruct m as [|p|p]; cbn; lia. Qed.

Lemma Zdigits2_unique (m n : Z) :
  2 ^ (n - 1) <= m < 2 ^ n -> 0 < m -> Zdigits2 m = n.
Proof.
  intros Hn Hm.
  pose proof (Zdigits2_bounds m Hm) as Hd.
  pose proof (Zdigits2_pos m Hm) as Hpos.
  destruct (Z.lt_trichotomy (Zdigits2 m) n) as [Hlt | [Heq | Hgt]];
    [exfalso | exact Heq | exfalso].
  - assert (2 ^ Zdigits2 m <= 2 ^ (n - 1)) by (apply Z.pow_le_mono_r; lia).
    lia.
  - destruct (Z.le_gt_cases 0 n) as [Hn0 | Hn0].
    + assert (2 ^ n <= 2 ^ (Zdigits2 m - 1)) by (apply Z.pow_le_mono_r; lia).
      lia.
    + rewrite (Z.pow_neg_r 2 n) in Hn by lia. lia.
Qed.

(** Cutting [k] low digits off leaves the others. *)
Lemma Zdigits2_div (m k : Z) :
  0 < m -> 0 <= k < Zdigits2 m ->
  0 < m / 2 ^ k /\ Zdigits2 (m / 2 ^ k) = Zdigits2 m - k.
Proof.
  intros Hm Hk.
  pose proof (Zdigits2_bounds m Hm) as [Hlo Hhi].
  assert (Hpow : 0 < 2 ^ k) by (apply Z.pow_pos_nonneg; lia).
  assert (Hlo' : 2 ^ (Zdigits2 m - k - 1) <= m / 2 ^ k).
  { apply Z.div_le_lower_bound; [exact Hpow|].
    rewrite <- Z.pow_add_r by lia.
    now replace (k + (Zdigits2 m - k - 1)) with (Zdigits2 m - 1) by lia. }
  assert (Hhi' : m / 2 ^ k < 2 ^ (Zdigits2 m - k)).
  { apply Z.div_lt_upper_bound; [exact Hpow|].
    rewrite <- Z.pow_add_r by lia.
    now replace (k + (Zdigits2 m - k)) with (Zdigits2 m) by lia. }
  assert (Hq : 0 < m / 2 ^ k).
  { assert (0 < 2 ^ (Zdigits2 m - k - 1)) by (apply Z.pow_pos_nonneg; lia).
    lia. }
  split; [exact Hq|].
  apply Zdigits2_unique; [|exact Hq].
  now replace (Zdigits2 m - k - 1) with (Zdigits2 m - k - 1) in Hlo' by lia.
Qed.

Lemma fexp_unfold (x : Z) : fexp prec emax x = Z.max (x - 53) (-1074).
Proof. reflexivity. Qed.

(** Rounding an exact, positive quantity [m * 2^e] that lies in the normal
    range: the result is [m' * 2^e'], off by less than one part in [2^52]
    from below, exact when [m] fits the precision, and an infinity when the
    exponent leaves the range. *)
Lemma binary_round_aux_normal (s : bool) (m e : Z) :
  0 < m -> -1074 <= Zdigits2 m + e - 53 ->
  exists m' e',
    0 < m' /\ e <= e'
    /\ (2 ^ 52 - 1) * m <= 2 ^ 52 * (m' * 2 ^ (e' - e))
    /\ (Zdigits2 m <= 53 -> m' = m /\ e' = e)
    /\ binary_round_aux prec emax s m e loc_Exact
       = if e' <=? emax - prec
         then S754_finite s (Z.to_pos m') e'
         else S754_infinity s.
Proof.
  intros Hm Hn.
  destruct (binary_round_aux_shape s m e loc_Exact) as (m2 & Hb & Hex & H);
    [lia|].
  cbv zeta in H. rewrite !fexp_unfold in *.
  destruct (Z.le_gt_cases (Zdigits2 m) 53) as [Hd | Hd].
  - replace (Z.max 0 (Z.max (Zdigits2 m + e - 53) (-1074) - e)) with 0 in *
      by lia.
    specialize (Hex eq_refl eq_refl). subst m2.
    replace (e + 0) with e in H by lia.
    replace (Z.max 0 (Z.max (Zdigits2 m + e - 53) (-1074) - e)) with 0 in H
      by lia.
    rewrite Z.div_1_r in H. replace (e + 0) with e in H by lia.
    exists m, e. replace (e - e) with 0 by lia.
    repeat split; try lia.
    rewrite H. destruct m as [|p|p]; try lia. reflexivity.
  - set (k1 := Zdigits2 m - 53) in *.
    replace (Z.max 0 (Z.max (Zdigits2 m + e - 53) (-1074) - e)) with k1 in *
      by lia.
    destruct (Zdigits2_div m k1 Hm) as [Hm1 Hd1]; [lia|].
    set (m1 := m / 2 ^ k1) in *.
    replace (Zdigits2 m - k1) with 53 in Hd1 by lia.
    pose proof (Zdigits2_bounds m1 Hm1) as Hm1b. rewrite Hd1 in Hm1b.
    change (2 ^ (53 - 1)) with 4503599627370496 in Hm1b.
    change (2 ^ 53) with 9007199254740992 in Hm1b.
    assert (HP : 0 < 2 ^ k1) by (apply Z.pow_pos_nonneg; lia).
    assert (Hbig : 4503599627370496 * 2 ^ k1 <= m).
    { pose proof (Zdigits2_bounds m Hm) as [Hlo _].
      replace (Zdigits2 m - 1) with (52 + k1) in Hlo by lia.
      rewrite Z.pow_add_r in Hlo by lia. exact Hlo. }
    assert (Hcut : m - 2 ^ k1 < m1 * 2 ^ k1).
    { pose proof (Z.div_mod m (2 ^ k1)) as Hdm.
      pose proof (Z.mod_pos_bound m (2 ^ k1) HP) as Hr.
      fold m1 in Hdm. lia. }
    assert (Hup : m1 * 2 ^ k1 <= m2 * 2 ^ k1)
      by (apply Z.mul_le_mono_nonneg_r; lia).
    change (2 ^ 52) with 4503599627370496.
    destruct (Z.lt_ge_cases m2 9007199254740992) as [Hm2 | Hm2].
    + assert (Hd2 : Zdigits2 m2 = 53).
      { apply Zdigits2_unique; [|lia].
        change (2 ^ (53 - 1)) with 4503599627370496.
        change (2 ^ 53) with 9007199254740992. lia. }
      rewrite Hd2 in H.
      replace (Z.max 0 (Z.max (53 + (e + k1) - 53) (-1074) - (e + k1)))
        with 0 in H by lia.
      rewrite Z.div_1_r in H. replace (e + k1 + 0) with (e + k1) in H by lia.
      exists m2, (e + k1). replace (e + k1 - e) with k1 by lia.
      repeat split; try lia.
      rewrite H. destruct m2 as [|p|p]; try lia. reflexivity.
    + assert (Hm2' : m2 = 9007199254740992) by lia. subst m2.
      change (Zdigits2 9007199254740992) with 54 in H.
      replace (Z.max 0 (Z.max (54 + (e + k1) - 53) (-1074) - (e + k1)))
        with 1 in H by lia.
      change (9007199254740992 / 2 ^ 1) with 4503599627370496 in H.
      exists 4503599627370496, (e + k1 + 1).
      replace (e + k1 + 1 - e) with (k1 + 1) by lia.
      rewrite Z.pow_add_r by lia. change (2 ^ 1) with 2.
      repeat split; try lia.
      exact H.
Qed.

(** ** Values *)

Lemma pow2_pos (e : Z) : (0 < 2 ^ e)%Q.
Proof. apply Qpower_0_lt. reflexivity. Qed.

Lemma F2Q_shift (m e k : Z) : 0 <= k -> (F2Q (m * 2 ^ k) e == F2Q m (e + k))%Q.
Proof.
  intros Hk. unfold F2Q. rewrite inject_Z_mult, Zpower_Qpower by exact Hk.
  rewrite Qpower_plus by discriminate. change (inject_Z 2) with 2%Q. ring.
Qed.

(** A positive [m * 2^e] of at least one has its leading digit above the
    units. *)
Lemma F2Q_ge_1_digits (m e : Z) :
  0 < m -> (1 <= F2Q m e)%Q -> 1 <= Zdigits2 m + e.
Proof.
  intros Hm H1.
  pose proof (Zdigits2_bounds m Hm) as [_ Hhi].
  pose proof (Zdigits2_pos m Hm) as Hd.
  assert (Hlt : (F2Q m e < 2 ^ (Zdigits2 m + e))%Q).
  { unfold F2Q. rewrite Qpower_plus by discriminate.
    rewrite Zlt_Qlt, Zpower_Qpower in Hhi by lia.
    change (inject_Z 2) with 2%Q in Hhi.
    pose proof (pow2_pos e). nra. }
  assert (H0 : (2 ^ 0 < 2 ^ (Zdigits2 m + e))%Q).
  { change (2 ^ 0)%Q with 1%Q. lra. }
  apply (Qpower_lt_compat_l_inv 2 0 (Zdigits2 m + e)) in H0;
    [lia | reflexivity].
Qed.

(** Rounding a positive exact quantity of at least one: an infinity, or a
    float not below [1 - 2^-52] times the quantity, and the very quantity when
    its mantissa fits the precision. *)
Lemma binary_round_aux_value (s : bool) (m e : Z) :
  0 < m -> (1 <= F2Q m e)%Q ->
  binary_round_aux prec emax s m e loc_Exact = S754_infinity s
  \/ exists p e',
       binary_round_aux prec emax s m e loc_Exact = S754_finite s p e'
       /\ (one_minus_ulp * F2Q m e <= F2Q (Zpos p) e')%Q
       /\ (Zdigits2 m <= 53 -> Zpos p = m /\ e' = e).
Proof.
  intros Hm H1.
  pose proof (F2Q_ge_1_digits m e Hm H1) as Hd.
  destruct (binary_round_aux_normal s m e Hm) as (m' & e' & Hm' & He & Hb & Hx & H);
    [lia|].
  rewrite H. destruct (e' <=? emax - prec); [right | now left].
  exists (Z.to_pos m'), e'. split; [reflexivity|].
  rewrite Z2Pos.id by exact Hm'. split; [|exact Hx].
  change (2 ^ 52 - 1) with 4503599627370495 in Hb.
  change (2 ^ 52) with 4503599627370496 in Hb.
  rewrite Zle_Qle in Hb. rewrite !inject_Z_mult in Hb.
  rewrite Zpower_Qpower in Hb by lia.
  change (inject_Z 2) with 2%Q in Hb.
  change (inject_Z 4503599627370495) with (4503599627370495 # 1) in Hb.
  change (inject_Z 4503599627370496) with (4503599627370496 # 1) in Hb.
  assert (Hpow : (2 ^ e' == 2 ^ (e' - e) * 2 ^ e)%Q).
  { rewrite <- Qpower_plus by discriminate. now replace (e' - e + e) with e' by lia. }
  unfold F2Q, one_minus_ulp. rewrite Hpow.
  pose proof (pow2_pos e) as He0.
  assert (Hscaled : ((4503599627370495 # 1) * inject_Z m * 2 ^ e
                     <= (4503599627370496 # 1) * (inject_Z m' * 2 ^ (e' - e)) * 2 ^ e)%Q).
  { apply Qmult_le_compat_r; [exact Hb | lra]. }
  lra.
Qed.

Lemma iter_xO_value (p d : positive) :
  Zpos (Pos.iter xO p d) = Zpos p * 2 ^ Zpos d.
Proof.
  induction d as [|d IH] using Pos.peano_ind.
  - cbn [Pos.iter]. change (2 ^ 1) with 2. lia.
  - rewrite Pos.iter_succ, Pos2Z.inj_xO, IH, Pos2Z.inj_succ.
    rewrite Z.pow_succ_r by lia. lia.
Qed.

(** Aligning a mantissa to a lower exponent changes nothing of the value. *)
Lemma shl_align_value (p : positive) (e e0 : Z) :
  (F2Q (Zpos (fst (shl_align p e e0))) (snd (shl_align p e e0))
   == F2Q (Zpos p) e)%Q
  /\ snd (shl_align p e e0) = Z.min e e0.
Proof.
  unfold shl_align.
  destruct (e0 - e) as [|d|d] eqn:E; cbn [fst snd].
  - split; [reflexivity | lia].
  - split; [reflexivity | lia].
  - split; [|lia].
    rewrite iter_xO_value, F2Q_shift by lia.
    now replace (e0 + Zpos d) with e by lia.
Qed.

Lemma binary_round_value (s : bool) (p : positive) (e : Z) :
  (1 <= F2Q (Zpos p) e)%Q ->
  binary_round prec emax s p e = S754_infinity s
  \/ exists p' e',
       binary_round prec emax s p e = S754_finite s p' e'
       /\ (one_minus_ulp * F2Q (Zpos p) e <= F2Q (Zpos p') e')%Q.
Proof.
  intros H1. unfold binary_round.
  pose proof (shl_align_value p e (fexp prec emax (Zpos (digits2_pos p) + e)))
    as [Hv _].
  destruct (shl_align p e (fexp prec emax (Zpos (digits2_pos p) + e)))
    as [mz ez]. cbn [fst snd] in Hv.
  destruct (binary_round_aux_value s (Zpos mz) ez) as [Hinf | (p' & e' & Hr & Hb & _)];
    [lia | now rewrite Hv | now left | right].
  exists p', e'. split; [exact Hr|]. now rewrite <- Hv.
Qed.

(** The float of an [int] from 1 on: an infinity or a positive float not
    below [1 - 2^-52] times the [int]. *)
Lemma to_float_value (n : Z) :
  1 <= n ->
  Spec.to_float n = S754_infinity false
  \/ exists p e,
       Spec.to_float n = S754_finite false p e
       /\ (one_minus_ulp * inject_Z n <= F2Q (Zpos p) e)%Q.
Proof.
  intros Hn. destruct n as [|p|p]; try lia.
  unfold Spec.to_float. cbn [binary_normalize].
  assert (Hv : (F2Q (Zpos p) 0 == inject_Z (Zpos p))%Q).
  { unfold F2Q. change (2 ^ 0)%Q with 1%Q. ring. }
  destruct (binary_round_value false p 0) as [Hinf | (p' & e' & Hr & Hb)];
    [|now left|right].
  - rewrite Hv. rewrite Zle_Qle in Hn. exact Hn.
  - exists p', e'. split; [exact Hr|]. now rewrite <- Hv.
Qed.

(** An easiness factor of at least 1.3, as a number. *)
Lemma geb_f1_3_value (x : float) :
  is_float x = true -> geb x f1_3 = true ->
  x = S754_infinity false
  \/ exists m e, x = S754_finite false m e /\ (13 # 10 <= F2Q (Zpos m) e)%Q.
Proof.
  intros Hfloat Hge.
  destruct x as [s|s| |s m e]; try discriminate Hge.
  - destruct s; [discriminate Hge | now left].
  - right. destruct s; [discriminate Hge|].
    exists m, e. split; [reflexivity|].
    unfold geb, SFleb, f1_3 in Hge. cbn [SFcompare] in Hge.
    unfold is_float, valid_binary, bounded, canonical_mantissa in Hfloat.
    apply andb_true_iff in Hfloat. destruct Hfloat as [Hcanon _].
    apply Z.eqb_eq in Hcanon. rewrite fexp_unfold in Hcanon.
    unfold F2Q.
    destruct (Z.compare_spec (-52) e) as [He | He | He];
      [| |discriminate Hge].
    + subst e.
      assert (Hm : 5854679515581645 <= Zpos m).
      { change (Pos.compare_cont Eq 5854679515581645 m)
          with (Pos.compare 5854679515581645 m) in Hge.
        destruct (Pos.compare_spec 5854679515581645 m);
          [lia | lia | discriminate Hge]. }
      rewrite Zle_Qle in Hm.
      assert (Hp : (2 ^ (-52) == 1 # 4503599627370496)%Q) by reflexivity.
      rewrite Hp.
      change (inject_Z 5854679515581645) with (5854679515581645 # 1) in Hm.
      lra.
    + assert (Hd : Zpos (digits2_pos m) = 53) by lia.
      pose proof (digits2_pos_bounds m) as [Hlo _]. rewrite Hd in Hlo.
      change (2 ^ (53 - 1)) with 4503599627370496 in Hlo.
      rewrite Zle_Qle in Hlo.
      change (inject_Z 4503599627370496) with (4503599627370496 # 1) in Hlo.
      assert (Hp : (2 ^ (-51) <= 2 ^ e)%Q)
        by (apply Qpower_le_compat_l; [lia | discriminate]).
      assert (Hp' : (2 ^ (-51) == 1 # 2251799813685248)%Q) by reflexivity.
      rewrite Hp' in Hp. nra.
Qed.

(** ** The recompute against the specification *)

Lemma geb_f1_3_shape (x : float) :
  geb x f1_3 = true ->
  x = S754_infinity false \/ exists m e, x = S754_finite false m e.
Proof.
  destruct x as [s|s| |s m e]; try discriminate; destruct s; try discriminate;
    eauto.
Qed.

(** The rounding step, [round(interval * new_ef)], for an interval from 1 on
    and an easiness factor of at least 1.3: it returns the nearest integer of
    the product when the product is finite and raises [OverflowError] when it
    is not. *)
Lemma rounding_step (interval : Z) (new_ef : float) :
  1 <= interval -> geb new_ef f1_3 = true ->
  (p <- int_mul interval new_ef ;; round p)
  = if is_finite (mul (Spec.to_float interval) new_ef)
    then Ok (Spec.nearest (mul (Spec.to_float interval) new_ef))
    else Raise OverflowError.
Proof.
  intros Hi Hef. unfold int_mul.
  destruct (to_float_value interval Hi) as [Hinf | (p & e & Hx & _)].
  - assert (Hraise : of_int interval = Raise OverflowError).
    { unfold of_int. fold (Spec.to_float interval). now rewrite Hinf. }
    rewrite Hraise, Hinf. cbn [bind].
    destruct (geb_f1_3_shape new_ef Hef) as [-> | (m & e & ->)]; reflexivity.
  - rewrite (of_int_to_float interval) by now rewrite Hx.
    cbn [bind]. rewrite Hx.
    pose proof (mul_nonzero_l_not_nan false p e new_ef (geb_not_nan _ _ Hef))
      as Hnan.
    unfold Spec.nearest.
    destruct (mul (S754_finite false p e) new_ef); try reflexivity.
    discriminate Hnan.
Qed.

Lemma new_easiness_factor_is_newEF (easiness_factor : float) (q : Z) :
  geb easiness_factor f1_3 = true -> 0 <= q <= 5 ->
  new_easiness_factor easiness_factor q = Ok (Spec.newEF easiness_factor q)
  /\ geb (Spec.newEF easiness_factor q) f1_3 = true.
Proof.
  intros Hef Hq.
  destruct (new_easiness_factor_in_scale easiness_factor q Hq) as [Hnew Hdelta].
  assert (Hnan : is_nan (add easiness_factor (Spec.delta q)) = false).
  { apply add_finite_r_not_nan; [exact (geb_not_nan _ _ Hef) | exact Hdelta]. }
  unfold Spec.newEF. rewrite <- (clamp_is_max _ Hnan).
  split; [exact Hnew | now apply clamp_floor].
Qed.

(** Once the easiness factor is the specification's and at least 1.3, the
    rest of the call is the specification's too, up to the overflow of the
    rounding step. *)
Lemma calculate_next_review_after_ef (today : date)
    (easiness_factor : float) (interval repetitions quality : Z)
    (reference_date : option date) :
  new_easiness_factor easiness_factor quality
  = Ok (Spec.newEF easiness_factor quality) ->
  geb (Spec.newEF easiness_factor quality) f1_3 = true ->
  1 <= interval -> 0 <= repetitions ->
  calculate_next_review today easiness_factor interval repetitions
    (Some quality) reference_date
  = if (quality <? 3) || (repetitions + 1 <=? 2)
       || is_finite (mul (Spec.to_float interval)
                         (Spec.newEF easiness_factor quality))
    then Ok (Spec.recompute easiness_factor interval repetitions quality
               (match reference_date with
                | Some d => d
                | None => today
                end))
    else Raise OverflowError.
Proof.
  intros Hnew Hfloor Hi Hr.
  rewrite calculate_next_review_parts.
  rewrite Hnew. cbn [bind].
  unfold Spec.recompute, Spec.newInterval, Spec.newRepetitions.
  destruct (quality <? 3) eqn:Hlapse; [reflexivity|]. cbn [orb].
  destruct (repetitions + 1 =? 1) eqn:H1.
  { apply Z.eqb_eq in H1.
    replace (repetitions + 1 <=? 2) with true by (symmetry; apply Z.leb_le; lia).
    reflexivity. }
  destruct (repetitions + 1 =? 2) eqn:H2.
  { apply Z.eqb_eq in H2.
    replace (repetitions + 1 <=? 2) with true by (symmetry; apply Z.leb_le; lia).
    reflexivity. }
  apply Z.eqb_neq in H1, H2.
  replace (repetitions + 1 <=? 2) with false by (symmetry; apply Z.leb_gt; lia).
  cbn [orb].
  pose proof (rounding_step interval (Spec.newEF easiness_factor quality) Hi
                Hfloor) as Hstep.
  destruct (int_mul interval (Spec.newEF easiness_factor quality)) as [p|e];
    cbn [bind] in *.
  - destruct (is_finite (mul (Spec.to_float interval)
                             (Spec.newEF easiness_factor quality)));
      rewrite Hstep; reflexivity.
  - destruct (is_finite (mul (Spec.to_float interval)
                             (Spec.newEF easiness_factor quality)));
      [discriminate Hstep | now injection Hstep as ->].
Qed.




(** ** Qualities off the scale *)





(** ** Rounding to an integer *)

Lemma round_half_even_lower (p : positive) (e : Z) :
  (F2Q (Zpos p) e - (1 # 2) <= inject_Z (round_half_even p e))%Q.
Proof.
  unfold F2Q.
  destruct e as [|k|k]; cbn [round_half_even].
  - change (2 ^ 0)%Q with 1%Q. rewrite Z.mul_1_r. lra.
  - rewrite inject_Z_mult, Zpower_Qpower by lia.
    change (inject_Z 2) with 2%Q. lra.
  - set (d := (2 ^ Zpos k)%Z).
    assert (Hd : (0 < d)%Z) by (apply Z.pow_pos_nonneg; lia).
    pose proof (Z.div_mod (Zpos p) d) as Hdm.
    pose proof (Z.mod_pos_bound (Zpos p) d Hd) as Hr.
    set (q := (Zpos p / d)%Z) in *. set (r := (Zpos p mod d)%Z) in *.
    assert (Hn : forall n : Z, (2 * Zpos p - d <= 2 * (n * d))%Z ->
                        (inject_Z (Zpos p) * 2 ^ Zneg k - (1 # 2) <= inject_Z n)%Q).
    { intros n Hz.
      rewrite Zle_Qle in Hz.
      unfold Z.sub in Hz.
      rewrite inject_Z_plus, inject_Z_opp, !inject_Z_mult in Hz.
      change (inject_Z 2) with 2%Q in Hz.
      assert (HD : (inject_Z d == 2 ^ Zpos k)%Q)
        by (unfold d; now rewrite Zpower_Qpower by lia).
      assert (Hinv : (2 ^ Zneg k == / inject_Z d)%Q).
      { rewrite HD. change (Zneg k) with (- Zpos k)%Z. apply Qpower_opp. }
      assert (HdQ : (0 < inject_Z d)%Q).
      { change 0%Q with (inject_Z 0). rewrite <- Zlt_Qlt. exact Hd. }
      rewrite Hinv.
      set (D := inject_Z d) in *. set (P := inject_Z (Zpos p)) in *.
      set (N := inject_Z n) in *.
      assert (HX : (P * / D * D == P)%Q) by (field; lra).
      set (X := (P * / D)%Q) in *.
      nra. }
    destruct (Z.compare_spec (2 * r) d) as [Heq | Hlt | Hgt]; apply Hn.
    + destruct (Z.even q); nia.
    + nia.
    + nia.
Qed.

(** ** Products and sums from below *)

(** What the lemmas below say of a float [x] and a rational [lo]: [x] is the
    positive infinity or a positive float of value at least [lo]. *)
Local Abbreviation at_least x lo :=
  (x = S754_infinity false
   \/ exists p e, x = S754_finite false p e /\ (lo <= F2Q (Zpos p) e)%Q).

Lemma mul_value (px : positive) (ex : Z) (py : positive) (ey : Z) :
  (1 <= F2Q (Zpos px) ex * F2Q (Zpos py) ey)%Q ->
  at_least (mul (S754_finite false px ex) (S754_finite false py ey))
           (one_minus_ulp * (F2Q (Zpos px) ex * F2Q (Zpos py) ey))%Q.
Proof.
  intros H1.
  assert (Hv : (F2Q (Zpos (px * py)) (ex + ey)
                == F2Q (Zpos px) ex * F2Q (Zpos py) ey)%Q).
  { unfold F2Q. rewrite Pos2Z.inj_mul, inject_Z_mult.
    rewrite Qpower_plus by discriminate. ring. }
  unfold mul. cbn [SFmul xorb].
  destruct (binary_round_aux_value false (Zpos (px * py)) (ex + ey))
    as [Hinf | (p & e & Hr & Hb & _)];
    [lia | now rewrite Hv | now left | right].
  exists p, e. split; [exact Hr|]. now rewrite <- Hv.
Qed.

Lemma F2Q_plus (a b e : Z) : (F2Q (a + b) e == F2Q a e + F2Q b e)%Q.
Proof. unfold F2Q. rewrite inject_Z_plus. ring. Qed.

Lemma F2Q_cond_Zopp (s : bool) (m e : Z) :
  (F2Q (cond_Zopp s m) e == (if s then - F2Q m e else F2Q m e))%Q.
Proof.
  unfold F2Q. destruct s; cbn [cond_Zopp]; [|reflexivity].
  rewrite inject_Z_opp. ring.
Qed.

Lemma add_value (px : positive) (ex : Z) (sy : bool) (py : positive) (ey : Z) :
  (1 <= F2Q (Zpos px) ex + value (S754_finite sy py ey))%Q ->
  at_least (add (S754_finite false px ex) (S754_finite sy py ey))
           (one_minus_ulp
            * (F2Q (Zpos px) ex + value (S754_finite sy py ey)))%Q.
Proof.
  intros H1. unfold add. cbn [SFadd].
  set (ez := Z.min ex ey).
  destruct (shl_align_value px ex ez) as [Hvx Hex].
  destruct (shl_align_value py ey ez) as [Hvy Hey].
  replace (Z.min ex ez) with ez in Hex by lia.
  replace (Z.min ey ez) with ez in Hey by lia.
  rewrite Hex in Hvx. rewrite Hey in Hvy.
  set (mx := Zpos (fst (shl_align px ex ez))) in *.
  set (my := Zpos (fst (shl_align py ey ez))) in *.
  cbn [cond_Zopp].
  assert (Hsum : (F2Q (mx + cond_Zopp sy my) ez
                  == F2Q (Zpos px) ex + value (S754_finite sy py ey))%Q).
  { rewrite F2Q_plus, Hvx. cbn [value].
    destruct sy; cbn [cond_Zopp]; [|now rewrite Hvy].
    change (Z.neg py) with (- Zpos py). unfold F2Q in *.
    rewrite !inject_Z_opp. lra. }
  rewrite <- Hsum in H1.
  assert (Hpos : 0 < mx + cond_Zopp sy my).
  { unfold F2Q in H1. pose proof (pow2_pos ez) as Hp.
    destruct (Z.lt_ge_cases 0 (mx + cond_Zopp sy my)) as [H|H]; [exact H|].
    exfalso. rewrite Zle_Qle in H. change (inject_Z 0) with 0%Q in H. nra. }
  destruct (mx + cond_Zopp sy my) as [|p|p] eqn:E; try lia.
  cbn [binary_normalize].
  destruct (binary_round_value false p ez H1) as [Hinf | (p' & e' & Hr & Hb)];
    [now left | right].
  exists p', e'. split; [exact Hr|]. now rewrite <- Hsum.
Qed.

Lemma at_least_weaken (x : float) (lo lo' : Q) :
  (lo' <= lo)%Q -> at_least x lo -> at_least x lo'.
Proof.
  intros Hlo [Hinf | (p & e & Hx & Hb)]; [now left | right].
  exists p, e. split; [exact Hx | lra].
Qed.

(** After a success the easiness factor the call goes on with is well above
    one. *)
Lemma newEF_value (easiness_factor : float) (q : Z) :
  is_float easiness_factor = true -> geb easiness_factor f1_3 = true ->
  3 <= q <= 5 ->
  at_least (Spec.newEF easiness_factor q) (one_minus_ulp * (23 # 20))%Q.
Proof.
  intros Hfloat Hef Hq.
  assert (H13 : at_least f1_3 (one_minus_ulp * (23 # 20))%Q).
  { right. exists 5854679515581645%positive, (-52). split; [reflexivity|].
    vm_compute. discriminate. }
  assert (Hsum : at_least (add easiness_factor (Spec.delta q))
                          (one_minus_ulp * (23 # 20))%Q).
  { assert (Hcases : q = 3 \/ q = 4 \/ q = 5) by lia.
    destruct (geb_f1_3_value easiness_factor Hfloat Hef)
      as [-> | (m & e & -> & Hv)].
    - left. destruct Hcases as [-> | [-> | ->]]; reflexivity.
    - destruct Hcases as [-> | [-> | ->]].
      + change (Spec.delta 3) with (S754_finite true 5044031582654955 (-55)).
        assert (Hd : (- (3 # 20)
                      <= value (S754_finite true 5044031582654955 (-55)))%Q)
          by (vm_compute; discriminate).
        apply (at_least_weaken _
                 (one_minus_ulp
                  * (F2Q (Zpos m) e
                     + value (S754_finite true 5044031582654955 (-55))))%Q).
        * unfold one_minus_ulp. lra.
        * apply add_value. lra.
      + change (Spec.delta 4) with (S754_zero false).
        right. exists m, e. split; [reflexivity|].
        unfold one_minus_ulp. lra.
      + change (Spec.delta 5) with f0_1. unfold f0_1.
        assert (Hd : (0 <= value (S754_finite false 7205759403792794 (-56)))%Q)
          by (vm_compute; discriminate).
        apply (at_least_weaken _
                 (one_minus_ulp
                  * (F2Q (Zpos m) e
                     + value (S754_finite false 7205759403792794 (-56))))%Q).
        * unfold one_minus_ulp. lra.
        * apply add_value. lra. }
  unfold Spec.newEF, max.
  destruct (ltb f1_3 (add easiness_factor (Spec.delta q))); assumption.
Qed.

(** ** Successful reviews never shorten the interval *)




(** * Further properties *)

(** ** Rounded results are floats *)

Lemma Zdigits2_le (m m' : Z) :
  0 < m -> m <= m' -> Zdigits2 m <= Zdigits2 m'.
Proof.
  intros Hm Hle.
  pose proof (Zdigits2_bounds m Hm) as [Hlo _].
  pose proof (Zdigits2_bounds m' ltac:(lia)) as [_ Hhi].
  pose proof (Zdigits2_pos m Hm) as Hd.
  pose proof (Zdigits2_pos m' ltac:(lia)) as Hd'.
  destruct (Z.le_gt_cases (Zdigits2 m) (Zdigits2 m')) as [H|H]; [exact H|].
  assert (2 ^ Zdigits2 m' <= 2 ^ (Zdigits2 m - 1))
    by (apply Z.pow_le_mono_r; lia).
  lia.
Qed.

Lemma Zdigits2_mul_pow2 (m k : Z) :
  0 < m -> 0 <= k -> Zdigits2 (m * 2 ^ k) = Zdigits2 m + k.
Proof.
  intros Hm Hk.
  pose proof (Zdigits2_bounds m Hm) as [Hlo Hhi].
  pose proof (Zdigits2_pos m Hm) as Hd.
  assert (Hp : 0 < 2 ^ k) by (apply Z.pow_pos_nonneg; lia).
  apply Zdigits2_unique; [|nia].
  replace (Zdigits2 m + k - 1) with (Zdigits2 m - 1 + k) by lia.
  rewrite !Z.pow_add_r by lia. nia.
Qed.

(** Cutting a mantissa down to the exponent its size asks for leaves a
    canonical pair. *)
Lemma shift_canonical (m e : Z) :
  0 < m ->
  let k := fexp prec emax (Zdigits2 m + e) - e in
  0 <= k -> 0 < m / 2 ^ k ->
  fexp prec emax (Zdigits2 (m / 2 ^ k) + (e + k)) = e + k.
Proof.
  intros Hm k Hk Hq.
  assert (Hlt : k < Zdigits2 m).
  { destruct (Z.lt_ge_cases k (Zdigits2 m)) as [H|H]; [exact H|]. exfalso.
    pose proof (Zdigits2_bounds m Hm) as [_ Hhi].
    pose proof (Zdigits2_pos m Hm) as Hd.
    assert (2 ^ Zdigits2 m <= 2 ^ k) by (apply Z.pow_le_mono_r; lia).
    rewrite Z.div_small in Hq by lia. lia. }
  destruct (Zdigits2_div m k Hm) as [_ Hd]; [lia|].
  rewrite Hd. replace (Zdigits2 m - k + (e + k)) with (Zdigits2 m + e) by lia.
  unfold k. lia.
Qed.

Lemma binary_round_aux_valid (s : bool) (m e : Z) (l : location) :
  0 < m -> e <= fexp prec emax (Zdigits2 m + e) ->
  valid_binary prec emax (binary_round_aux prec emax s m e l) = true.
Proof.
  intros Hm He.
  destruct (binary_round_aux_shape s m e l) as (m2 & Hb & _ & H); [lia|].
  cbv zeta in H. rewrite H. clear H.
  set (k1 := Z.max 0 (fexp prec emax (Zdigits2 m + e) - e)) in *.
  assert (Hk1 : k1 = fexp prec emax (Zdigits2 m + e) - e) by lia.
  set (m1 := m / 2 ^ k1) in *.
  assert (Hm1 : 0 <= m1) by (apply Z.div_pos; [lia | apply Z.pow_pos_nonneg; lia]).
  set (k2 := Z.max 0 (fexp prec emax (Zdigits2 m2 + (e + k1)) - (e + k1))).
  destruct (m2 / 2 ^ k2) as [|p|p] eqn:E3; [reflexivity| |reflexivity].
  destruct (e + k1 + k2 <=? emax - prec) eqn:Ee; [|reflexivity].
  cbn [valid_binary]. unfold bounded. rewrite Ee, andb_true_r.
  unfold canonical_mantissa. apply Z.eqb_eq.
  assert (Hm2 : 0 < m2).
  { destruct (Z.lt_ge_cases 0 m2) as [H0|H0]; [exact H0|].
    assert (m2 = 0) by lia. subst m2. rewrite Z.div_0_l in E3; [discriminate|].
    apply Z.pow_nonzero; lia. }
  (* the pair after the first cut asks for no lower exponent *)
  assert (Hk2 : 0 <= fexp prec emax (Zdigits2 m2 + (e + k1)) - (e + k1)).
  { destruct (Z.lt_ge_cases 0 m1) as [Hpos|Hzero].
    - pose proof (shift_canonical m e Hm) as Hc. cbv zeta in Hc.
      rewrite <- Hk1 in Hc. fold m1 in Hc. specialize (Hc ltac:(lia) Hpos).
      pose proof (Zdigits2_le m1 m2 Hpos ltac:(lia)) as Hdd.
      rewrite !fexp_unfold in *. lia.
    - assert (Hm10 : m1 = 0) by lia.
      assert (Hkd : Zdigits2 m <= k1).
      { destruct (Z.le_gt_cases (Zdigits2 m) k1) as [Hle|Hgt]; [exact Hle|].
        destruct (Zdigits2_div m k1 Hm) as [Hq _]; [lia|].
        fold m1 in Hq. lia. }
      rewrite !fexp_unfold in *. lia. }
  pose proof (shift_canonical m2 (e + k1) Hm2) as Hc. cbv zeta in Hc.
  replace (fexp prec emax (Zdigits2 m2 + (e + k1)) - (e + k1)) with k2 in Hc
    by lia.
  specialize (Hc ltac:(lia)). rewrite E3 in Hc.
  specialize (Hc ltac:(lia)).
  change (Zdigits2 (Z.pos p)) with (Z.pos (digits2_pos p)) in Hc.
  exact Hc.
Qed.

Lemma binary_round_valid (s : bool) (p : positive) (e : Z) :
  valid_binary prec emax (binary_round prec emax s p e) = true.
Proof.
  unfold binary_round.
  set (f := fexp prec emax (Zpos (digits2_pos p) + e)).
  unfold shl_align.
  destruct (f - e) as [|d|d] eqn:E.
  - apply binary_round_aux_valid; [lia|].
    change (Zdigits2 (Zpos p)) with (Zpos (digits2_pos p)). fold f. lia.
  - apply binary_round_aux_valid; [lia|].
    change (Zdigits2 (Zpos p)) with (Zpos (digits2_pos p)). fold f. lia.
  - apply binary_round_aux_valid; [lia|].
    rewrite iter_xO_value, Zdigits2_mul_pow2 by lia.
    change (Zdigits2 (Zpos p)) with (Zpos (digits2_pos p)).
    replace (Zpos (digits2_pos p) + Zpos d + f)
      with (Zpos (digits2_pos p) + e) by lia.
    fold f. lia.
Qed.

Lemma binary_normalize_valid (m e : Z) (szero : bool) :
  valid_binary prec emax (binary_normalize prec emax m e szero) = true.
Proof.
  destruct m as [|p|p]; cbn [binary_normalize];
    [reflexivity | apply binary_round_valid | apply binary_round_valid].
Qed.

(** The sum of two floats is a float. *)
Lemma add_is_float (x y : float) :
  is_float x = true -> is_float y = true -> is_float (add x y) = true.
Proof.
  intros Hx Hy.
  destruct x as [sx|sx| |sx mx ex], y as [sy|sy| |sy my ey];
    try reflexivity; try exact Hx; try exact Hy;
    try (destruct sx, sy; reflexivity).
  apply binary_normalize_valid.
Qed.

(** ** One recompute *)

(** The rounded product of an interval from 1 on and a factor well above one
    is not below the interval. *)
Lemma rounded_product_ge (interval : Z) (new_ef : float) :
  1 <= interval ->
  at_least new_ef (one_minus_ulp * (23 # 20))%Q ->
  is_finite (mul (Spec.to_float interval) new_ef) = true ->
  interval <= Spec.nearest (mul (Spec.to_float interval) new_ef).
Proof.
  intros Hi Hef Hfin.
  destruct (to_float_value interval Hi) as [Hx | (px & ex & Hx & Hbx)];
    rewrite Hx in *.
  { exfalso. destruct Hef as [-> | (p & e & -> & _)]; discriminate Hfin. }
  destruct Hef as [-> | (py & ey & -> & Hby)]; [discriminate Hfin|].
  assert (HN : (1 <= inject_Z interval)%Q).
  { change 1%Q with (inject_Z 1). rewrite <- Zle_Qle. exact Hi. }
  unfold one_minus_ulp in Hbx, Hby.
  assert (Hprod : ((4503599627370495 # 4503599627370496)
                   * (4503599627370495 # 4503599627370496) * (23 # 20)
                   * inject_Z interval
                   <= F2Q (Zpos px) ex * F2Q (Zpos py) ey)%Q) by nra.
  destruct (mul_value px ex py ey) as [Hp | (p & e & Hp & Hbp)];
    [nra | rewrite Hp in Hfin; discriminate Hfin |].
  rewrite Hp. unfold Spec.nearest. cbn [round cond_Zopp].
  pose proof (round_half_even_lower p e) as Hround.
  unfold one_minus_ulp in Hbp.
  destruct (Z.lt_ge_cases (round_half_even p e) interval) as [Hlt|Hge];
    [exfalso | lia].
  assert (Hle : round_half_even p e <= interval - 1) by lia.
  rewrite Zle_Qle in Hle. unfold Z.sub in Hle.
  rewrite inject_Z_plus, inject_Z_opp in Hle.
  change (inject_Z 1) with 1%Q in Hle.
  lra.
Qed.

Lemma delta_is_float (q : Z) :
  0 <= q <= 5 -> is_float (Spec.delta q) = true.
Proof.
  intros Hq.
  assert (Hcases : q = 0 \/ q = 1 \/ q = 2 \/ q = 3 \/ q = 4 \/ q = 5) by lia.
  destruct Hcases as [-> | [-> | [-> | [-> | [-> | ->]]]]]; reflexivity.
Qed.

(** What a call on a valid state returns, when it returns. *)
Lemma calculate_next_review_on_valid_state (today : date)
    (easiness_factor : float) (interval repetitions quality : Z)
    (reference_date : option date)
    (new_ef : float) (new_interval new_repetitions : Z) (next_review : date) :
  valid_state easiness_factor interval repetitions = true ->
  0 <= quality <= 5 ->
  calculate_next_review today easiness_factor interval repetitions
    (Some quality) reference_date
  = Ok (new_ef, new_interval, new_repetitions, next_review) ->
  new_ef = Spec.newEF easiness_factor quality
  /\ new_interval = Spec.newInterval easiness_factor interval repetitions quality
  /\ new_repetitions = Spec.newRepetitions repetitions quality
  /\ next_review
     = add_days (match reference_date with
                 | Some d => d
                 | None => today
                 end) new_interval
  /\ is_float new_ef = true /\ geb new_ef f1_3 = true
  /\ 1 <= new_interval /\ 0 <= new_repetitions.
Proof.
  unfold valid_state. intros Hvalid Hq Hcall.
  apply andb_true_iff in Hvalid. destruct Hvalid as [Hvalid Hr].
  apply andb_true_iff in Hvalid. destruct Hvalid as [Hvalid Hi].
  apply andb_true_iff in Hvalid. destruct Hvalid as [Hfloat Hef].
  apply Z.leb_le in Hr, Hi.
  destruct (new_easiness_factor_is_newEF easiness_factor quality Hef Hq)
    as [Hnew Hfloor].
  rewrite (calculate_next_review_after_ef today easiness_factor interval
             repetitions quality reference_date Hnew Hfloor Hi Hr) in Hcall.
  destruct ((quality <? 3) || (repetitions + 1 <=? 2)
            || is_finite (mul (Spec.to_float interval)
                              (Spec.newEF easiness_factor quality)))
    eqn:Hcond; [|discriminate Hcall].
  unfold Spec.recompute in Hcall.
  injection Hcall as <- <- <- <-.
  assert (Hfloat' : is_float (Spec.newEF easiness_factor quality) = true).
  { unfold Spec.newEF, max.
    destruct (ltb f1_3 (add easiness_factor (Spec.delta quality)));
      [|reflexivity].
    apply add_is_float; [exact Hfloat | now apply delta_is_float]. }
  assert (Hinterval : 1 <= Spec.newInterval easiness_factor interval
                             repetitions quality).
  { unfold Spec.newInterval, Spec.newRepetitions.
    destruct (quality <? 3) eqn:Hlapse; [lia|].
    apply Z.ltb_ge in Hlapse.
    destruct (repetitions + 1 =? 1) eqn:H1; [lia|].
    destruct (repetitions + 1 =? 2) eqn:H2; [lia|].
    apply Z.eqb_neq in H1, H2.
    cbn [orb] in Hcond.
    replace (repetitions + 1 <=? 2) with false in Hcond
      by (symmetry; apply Z.leb_gt; lia).
    cbn [orb] in Hcond.
    pose proof (rounded_product_ge interval
                  (Spec.newEF easiness_factor quality) Hi
                  (newEF_value easiness_factor quality Hfloat Hef
                     ltac:(lia)) Hcond).
    lia. }
  assert (Hreps : 0 <= Spec.newRepetitions repetitions quality).
  { unfold Spec.newRepetitions. destruct (quality <? 3); lia. }
  repeat split; assumption.
Qed.

(** X1.  [calculate_next_review] keeps the invariants of a memory state: from
    a float easiness factor of at least 1.3, an interval of at least 1, a
    repetition count that is not negative and a quality from 0 to 5, whatever
    it returns has again a float easiness factor of at least 1.3, an interval
    of at least 1 and a repetition count that is not negative, and the next
    review lies [new_interval] days, so at least one day, after the reference
    date. *)
Theorem calculate_next_review_keeps_state_valid (today : date)
    (easiness_factor : float) (interval repetitions quality : Z)
    (reference_date : option date)
    (new_ef : float) (new_interval new_repetitions : Z) (next_review : date) :
  valid_state easiness_factor interval repetitions = true ->
  0 <= quality <= 5 ->
  calculate_next_review today easiness_factor interval repetitions
    (Some quality) reference_date
  = Ok (new_ef, new_interval, new_repetitions, next_review) ->
  valid_state new_ef new_interval new_repetitions = true
  /\ next_review
     = add_days (match reference_date with
                 | Some d => d
                 | None => today
                 end) new_interval
  /\ (match reference_date with
      | Some d => d
      | None => today
      end) < next_review.
Proof.
  intros Hvalid Hq Hcall.
  destruct (calculate_next_review_on_valid_state today easiness_factor
              interval repetitions quality reference_date new_ef new_interval
              new_repetitions next_review Hvalid Hq Hcall)
    as (_ & _ & _ & Hnext & Hfloat & Hfloor & Hi & Hr).
  split; [|split; [exact Hnext|]].
  - unfold valid_state. rewrite Hfloat, Hfloor. cbn [andb].
    apply andb_true_iff. split; apply Z.leb_le; assumption.
  - rewrite Hnext. unfold add_days. destruct reference_date; lia.
Qed.

Lemma calculate_next_review_keeps_state_valid_witness :
  valid_state f2_5 95 5 = true /\ 100 < 195.
Proof.
  destruct (calculate_next_review_keeps_state_valid 0 f2_5 38 4 4 (Some 100)
              f2_5 95 5 195)
    as (Hvalid & _ & Hlater); [reflexivity | lia | reflexivity |].
  split; [exact Hvalid | exact Hlater].
Defined.






(** ** Being due *)

(** X4.  A topic is never due on the day it was reviewed.  After a returned
    recompute of a valid state, [is_due_for_review] holds on a day exactly
    when that day is [new_interval] days or more after the reference date (so
    not on the reference date), and [get_days_overdue] counts the days since
    the next review, zero before it. *)
Theorem reviewed_topic_is_due_only_later (today : date)
    (easiness_factor : float) (interval repetitions quality : Z)
    (reference_date : option date)
    (new_ef : float) (new_interval new_repetitions : Z) (next_review : date) :
  valid_state easiness_factor interval repetitions = true ->
  0 <= quality <= 5 ->
  calculate_next_review today easiness_factor interval repetitions
    (Some quality) reference_date
  = Ok (new_ef, new_interval, new_repetitions, next_review) ->
  let reviewed_on := match reference_date with
                     | Some d => d
                     | None => today
                     end in
  is_due_for_review reviewed_on next_review = false
  /\ get_days_overdue reviewed_on next_review = 0
  /\ forall day : date,
       (is_due_for_review day next_review = true
        <-> reviewed_on + new_interval <= day)
       /\ get_days_overdue day next_review
          = Z.max 0 (day - (reviewed_on + new_interval)).
Proof.
  intros Hvalid Hq Hcall reviewed_on.
  destruct (calculate_next_review_on_valid_state today easiness_factor
              interval repetitions quality reference_date new_ef new_interval
              new_repetitions next_review Hvalid Hq Hcall)
    as (_ & _ & _ & Hnext & _ & _ & Hi & _).
  fold reviewed_on in Hnext. unfold add_days in Hnext. subst next_review.
  unfold is_due_for_review, get_days_overdue.
  split; [apply Z.leb_gt; lia|].
  split.
  - replace (reviewed_on <? reviewed_on + new_interval) with true
      by (symmetry; apply Z.ltb_lt; lia).
    reflexivity.
  - intros day. split; [apply Z.leb_le|].
    destruct (day <? reviewed_on + new_interval) eqn:E;
      [apply Z.ltb_lt in E | apply Z.ltb_ge in E]; lia.
Qed.

Lemma reviewed_topic_is_due_only_later_witness :
  is_due_for_review 100 195 = false
  /\ get_days_overdue 100 195 = 0
  /\ forall day : date,
       (is_due_for_review day 195 = true <-> 100 + 95 <= day)
       /\ get_days_overdue day 195 = Z.max 0 (day - (100 + 95)).
Proof.
  apply (reviewed_topic_is_due_only_later 0 f2_5 38 4 4 (Some 100) f2_5 95 5
           195); [reflexivity | lia | reflexivity].
Defined.

(** X5.  [get_due_topics] and the helpers of [SM2Algorithm] agree: a row of
    the user is listed exactly when [is_due_for_review] holds of its
    [next_review]; a listed row is [today - next_review] days overdue, which
    is not negative, and a row left out is zero days overdue. *)
Theorem get_due_topics_agrees_with_is_due (today : date) (db : Db)
    (user_id : Z) (x : LearningHistory.t) :
  In x (visible_learning_history db) ->
  LearningHistory.user_id x = user_id ->
  (In x (fst (get_due_topics today db user_id))
   <-> is_due_for_review today (LearningHistory.next_review x) = true)
  /\ (In x (fst (get_due_topics today db user_id)) ->
      get_days_overdue today (LearningHistory.next_review x)
      = today - LearningHistory.next_review x
      /\ 0 <= get_days_overdue today (LearningHistory.next_review x))
  /\ (~ In x (fst (get_due_topics today db user_id)) ->
      get_days_overdue today (LearningHistory.next_review x) = 0).
Proof.
  intros Hin Huser.
  assert (Hlisted : In x (fst (get_due_topics today db user_id))
                    <-> LearningHistory.next_review x <= today).
  { change (fst (get_due_topics today db user_id))
      with (filter (fun x => (LearningHistory.user_id x =? user_id)
                             && (LearningHistory.next_review x <=? today))
                   (visible_learning_history db)).
    rewrite filter_In, andb_true_iff, Z.eqb_eq, Z.leb_le. tauto. }
  unfold is_due_for_review, get_days_overdue.
  split; [rewrite Hlisted; symmetry; apply Z.leb_le|].
  split; intros H.
  - apply Hlisted in H.
    replace (today <? LearningHistory.next_review x) with false
      by (symmetry; apply Z.ltb_ge; lia).
    lia.
  - rewrite Hlisted in H.
    replace (today <? LearningHistory.next_review x) with true
      by (symmetry; apply Z.ltb_lt; lia).
    reflexivity.
Qed.

Lemma get_due_topics_agrees_with_is_due_witness :
  In fractions (fst (get_due_topics 5 (open_session one_topic) 1))
  /\ get_days_overdue 5 (LearningHistory.next_review fractions) = 3.
Proof.
  destruct (get_due_topics_agrees_with_is_due 5 (open_session one_topic) 1
              fractions) as (Hiff & Hover & _);
    [now left | reflexivity |].
  assert (Hin : In fractions (fst (get_due_topics 5 (open_session one_topic) 1)))
    by (apply Hiff; reflexivity).
  split; [exact Hin | exact (proj1 (Hover Hin))].
Defined.

(** ** What recording a session touches *)

Lemma first_split {A : Type} (p : A -> bool) (a' : A) (l : list A) (x : A) :
  first p l = Some x ->
  exists before after,
    l = before ++ x :: after
    /\ Forall (fun y => p y = false) before
    /\ update_first p a' l = before ++ a' :: after.
Proof.
  unfold first. induction l as [|y l IH]; cbn; [discriminate|].
  destruct (p y) eqn:Hy; intros H.
  - injection H as ->. exists [], l. now repeat split.
  - destruct (IH H) as (before & after & -> & Hb & Hu).
    exists (y :: before), after. repeat split.
    + now constructor.
    + cbn. now rewrite Hu.
Qed.

(** The outcome of [record_study_session], whatever its arguments: the
    session after the call in each of the three ways through it. *)
Lemma record_study_session_cases (today : date) (db : Db)
    (user_id learning_history_id : Z) (session_date : date)
    (session_type : string) (quality_rating : option Z)
    (notes : option string) :
  let s := new_study_session db user_id learning_history_id session_date
             session_type quality_rating notes in
  let db1 := flush_for_query (add_study_session db s) in
  let r := record_study_session today db user_id learning_history_id
             session_date session_type quality_rating notes in
  (first (has_id learning_history_id) (visible_learning_history db) = None
   /\ r = (Ok s, commit db1))
  \/ (exists lh e,
        first (has_id learning_history_id) (visible_learning_history db)
        = Some lh
        /\ calculate_next_review today (LearningHistory.easiness_factor lh)
             (LearningHistory.interval lh) (LearningHistory.repetitions lh)
             quality_rating (Some session_date) = Raise e
        /\ r = (Raise e, db1))
  \/ (exists lh new_ef new_interval new_reps next_review,
        first (has_id learning_history_id) (visible_learning_history db)
        = Some lh
        /\ calculate_next_review today (LearningHistory.easiness_factor lh)
             (LearningHistory.interval lh) (LearningHistory.repetitions lh)
             quality_rating (Some session_date)
           = Ok (new_ef, new_interval, new_reps, next_review)
        /\ r = (Ok s,
                commit (write_learning_history db1
                          (reviewed lh new_ef new_interval new_reps
                             session_date next_review)))).
Proof.
  intros s db1 r.
  destruct (first (has_id learning_history_id) (visible_learning_history db))
    as [lh|] eqn:Hfirst.
  - destruct (calculate_next_review today (LearningHistory.easiness_factor lh)
                (LearningHistory.interval lh) (LearningHistory.repetitions lh)
                quality_rating (Some session_date))
      as [[[[new_ef new_interval] new_reps] next_review]|e] eqn:Hcalc.
    + right. right. exists lh, new_ef, new_interval, new_reps, next_review.
      split; [reflexivity|]. split; [exact Hcalc|].
      exact (record_study_session_update today db user_id learning_history_id
               session_date session_type quality_rating notes lh new_ef
               new_interval new_reps next_review Hfirst Hcalc).
    + right. left. exists lh, e.
      split; [reflexivity|]. split; [exact Hcalc|].
      exact (record_study_session_raise today db user_id learning_history_id
               session_date session_type quality_rating notes lh e Hfirst
               Hcalc).
  - left. split; [reflexivity|].
    exact (record_study_session_no_history today db user_id
             learning_history_id session_date session_type quality_rating
             notes Hfirst).
Qed.

(** The rows of the session are those a query reads followed by those it
    does not read yet. *)
Lemma session_rows_visible (db : Db) :
  exists unread,
    learning_history (session_rows db) = visible_learning_history db ++ unread
    /\ learning_history (added (flush_for_query db)) = unread.
Proof.
  unfold visible_learning_history, query_learning_history, flush_for_query,
    session_rows.
  destruct (autoflush db); cbn.
  - exists []. now rewrite app_nil_r.
  - now exists (learning_history (added db)).
Qed.

Lemma update_first_ext {A : Type} (p q : A -> bool) (a' : A) (l : list A) :
  (forall x, p x = q x) -> update_first p a' l = update_first q a' l.
Proof.
  intros H. induction l as [|x l IH]; cbn; [reflexivity|].
  rewrite H, IH. reflexivity.
Qed.

(** The committed tables after a call that found the row and whose recompute
    returned. *)
Lemma record_study_session_stored (today : date) (db : Db)
    (user_id learning_history_id : Z) (session_date : date)
    (session_type : string) (quality_rating : option Z)
    (notes : option string) (lh : LearningHistory.t) (new_ef : float)
    (new_interval new_reps : Z) (next_review : date) :
  first (has_id learning_history_id) (visible_learning_history db) = Some lh ->
  calculate_next_review today (LearningHistory.easiness_factor lh)
    (LearningHistory.interval lh) (LearningHistory.repetitions lh)
    quality_rating (Some session_date)
  = Ok (new_ef, new_interval, new_reps, next_review) ->
  let s := new_study_session db user_id learning_history_id session_date
             session_type quality_rating notes in
  let r := record_study_session today db user_id learning_history_id
             session_date session_type quality_rating notes in
  fst r = Ok s
  /\ exists before after,
       learning_history (session_rows db) = before ++ lh :: after
       /\ Forall (fun x => LearningHistory.id x <> learning_history_id) before
       /\ learning_history (stored (snd r))
          = before
            ++ reviewed lh new_ef new_interval new_reps session_date
                 next_review
            :: after
       /\ study_sessions (stored (snd r))
          = study_sessions (session_rows db) ++ [s]
       /\ users (stored (snd r)) = users (session_rows db)
       /\ newsletters (stored (snd r)) = newsletters (session_rows db)
       /\ curriculum_items (stored (snd r))
          = curriculum_items (session_rows db).
Proof.
  intros Hsome Hcalc s r. subst r.
  rewrite (record_study_session_update today db user_id learning_history_id
             session_date session_type quality_rating notes lh new_ef
             new_interval new_reps next_review Hsome Hcalc).
  fold s. cbn [fst snd]. split; [reflexivity|].
  set (lh' := reviewed lh new_ef new_interval new_reps session_date
                next_review).
  set (db1 := flush_for_query (add_study_session db s)).
  destruct (first_split (has_id learning_history_id) lh' _ _ Hsome)
    as (before & after & Hvis & Hbefore & Hupd).
  destruct (session_rows_visible (add_study_session db s))
    as (unread & Hrows & Hunread).
  fold db1 in Hunread.
  rewrite (visible_after_add_study_session db s) in Hrows.
  assert (Hlive : learning_history (live db1) = visible_learning_history db).
  { rewrite <- (visible_after_add_study_session db s). reflexivity. }
  assert (Hid : LearningHistory.id lh = learning_history_id).
  { apply first_some in Hsome. destruct Hsome as [_ H].
    unfold has_id in H. now apply Z.eqb_eq in H. }
  pose proof (session_rows_flush_for_query (add_study_session db s)) as Hflush.
  fold db1 in Hflush.
  exists before, (after ++ unread).
  rewrite stored_commit.
  split; [|split; [|split; [|split; [|split; [|split]]]]].
  - change (learning_history (session_rows (add_study_session db s)))
      with (learning_history (session_rows db)) in Hrows.
    rewrite Hrows, Hvis, <- app_assoc. reflexivity.
  - eapply Forall_impl; [|exact Hbefore].
    intros x Hx. unfold has_id in Hx. now apply Z.eqb_neq in Hx.
  - unfold session_rows, write_learning_history.
    cbn [live added learning_history append_tables].
    rewrite Hlive, Hunread.
    rewrite (update_first_ext _ (has_id learning_history_id)).
    + rewrite Hupd, <- app_assoc. reflexivity.
    + intros x. unfold has_id. cbn. now rewrite Hid.
  - change (study_sessions (session_rows (write_learning_history db1 lh')))
      with (study_sessions (session_rows db1)).
    rewrite Hflush. unfold session_rows. cbn. now rewrite app_assoc.
  - change (users (session_rows (write_learning_history db1 lh')))
      with (users (session_rows db1)).
    now rewrite Hflush.
  - change (newsletters (session_rows (write_learning_history db1 lh')))
      with (newsletters (session_rows db1)).
    now rewrite Hflush.
  - change (curriculum_items (session_rows (write_learning_history db1 lh')))
      with (curriculum_items (session_rows db1)).
    now rewrite Hflush.
Qed.

(** X6.  A recorded review touches one row and adds one session.  When the
    row is found and the recompute returns, the committed [learning_history]
    table is the session's table with the first row of that id replaced in
    place by the reviewed one (same key, user, subject and topic; the new
    SM-2 values; [last_reviewed] the session date), every other row as it
    was; [study_sessions] has grown by exactly the new session; the other
    tables are as they were. *)
Theorem record_study_session_changes_one_row (today : date) (db : Db)
    (user_id learning_history_id : Z) (session_date : date)
    (session_type : string) (quality_rating : option Z)
    (notes : option string) (lh : LearningHistory.t) (new_ef : float)
    (new_interval new_reps : Z) (next_review : date) :
  first (has_id learning_history_id) (visible_learning_history db) = Some lh ->
  calculate_next_review today (LearningHistory.easiness_factor lh)
    (LearningHistory.interval lh) (LearningHistory.repetitions lh)
    quality_rating (Some session_date)
  = Ok (new_ef, new_interval, new_reps, next_review) ->
  let db' := snd (record_study_session today db user_id learning_history_id
                    session_date session_type quality_rating notes) in
  (exists before after,
     learning_history (session_rows db) = before ++ lh :: after
     /\ Forall (fun x => LearningHistory.id x <> learning_history_id) before
     /\ learning_history (stored db')
        = before
          ++ {| LearningHistory.id := LearningHistory.id lh;
                LearningHistory.user_id := LearningHistory.user_id lh;
                LearningHistory.subject := LearningHistory.subject lh;
                LearningHistory.topic := LearningHistory.topic lh;
                LearningHistory.easiness_factor := new_ef;
                LearningHistory.interval := new_interval;
                LearningHistory.repetitions := new_reps;
                LearningHistory.last_reviewed := Some session_date;
                LearningHistory.next_review := next_review |}
          :: after)
  /\ study_sessions (stored db')
     = study_sessions (session_rows db)
       ++ [new_study_session db user_id learning_history_id session_date
             session_type quality_rating notes]
  /\ users (stored db') = users (session_rows db)
  /\ newsletters (stored db') = newsletters (session_rows db)
  /\ curriculum_items (stored db') = curriculum_items (session_rows db).
Proof.
  intros Hsome Hcalc db'.
  destruct (record_study_session_stored today db user_id learning_history_id
              session_date session_type quality_rating notes lh new_ef
              new_interval new_reps next_review Hsome Hcalc)
    as (_ & before & after & H1 & H2 & H3 & H4 & H5 & H6 & H7).
  split; [exists before, after; now repeat split|].
  now repeat split.
Qed.

Lemma record_study_session_changes_one_row_witness :
  let db' := snd (record_study_session 0 (open_session one_topic) 1 1 2
                    "review" (Some 5) None) in
  learning_history (stored db')
  = [reviewed fractions (S754_finite false 5854679515581645 (-51)) 1 1 2 3]
  /\ List.length (study_sessions (stored db')) = 1%nat.
Proof.
  destruct (record_study_session_changes_one_row 0 (open_session one_topic)
              1 1 2 "review" (Some 5) None fractions
              (S754_finite false 5854679515581645 (-51)) 1 1 3)
    as (_ & Hsessions & _); [reflexivity | reflexivity |].
  split; [reflexivity|].
  cbv zeta. rewrite Hsessions. reflexivity.
Defined.

(** X7.  On the committed tables a call is all or nothing: if it raises, the
    committed tables are those from before the call; if it returns, all the
    session holds is committed. *)
Theorem record_study_session_all_or_nothing (today : date) (db : Db)
    (user_id learning_history_id : Z) (session_date : date)
    (session_type : string) (quality_rating : option Z)
    (notes : option string) :
  let r := record_study_session today db user_id learning_history_id
             session_date session_type quality_rating notes in
  match fst r with
  | Raise _ => stored (snd r) = stored db
  | Ok _ => stored (snd r) = session_rows (snd r) /\ added (snd r) = no_rows
  end.
Proof.
  destruct (record_study_session_cases today db user_id learning_history_id
              session_date session_type quality_rating notes)
    as [[_ Hr] | [(lh & e & _ & _ & Hr) | (lh & a & b & c & d & _ & _ & Hr)]];
    cbv zeta; rewrite Hr; cbn [fst snd].
  - split; [|reflexivity]. unfold session_rows, commit. cbn [live added].
    now rewrite append_tables_no_rows.
  - now rewrite stored_flush_for_query.
  - split; [|reflexivity]. unfold session_rows, commit. cbn [live added].
    now rewrite append_tables_no_rows.
Qed.

(** The sessions a session holds are committed by the next call that
    returns. *)
Lemma record_study_session_commits_pending (today : date) (db : Db)
    (user_id learning_history_id : Z) (session_date : date)
    (session_type : string) (quality_rating : option Z)
    (notes : option string) (x : StudySession.t) :
  let r := record_study_session today db user_id learning_history_id
             session_date session_type quality_rating notes in
  returns (fst r) ->
  In x (study_sessions (session_rows db)) ->
  In x (study_sessions (stored (snd r))).
Proof.
  intros r [s Hs] Hx. subst r.
  set (s0 := new_study_session db user_id learning_history_id session_date
               session_type quality_rating notes).
  assert (Hrows : In x (study_sessions
                          (session_rows
                             (flush_for_query (add_study_session db s0))))).
  { rewrite session_rows_flush_for_query. unfold session_rows. cbn.
    unfold session_rows in Hx. cbn in Hx.
    apply in_app_or in Hx. apply in_or_app.
    destruct Hx as [Hx|Hx]; [now left | right].
    apply in_or_app. now left. }
  destruct (record_study_session_cases today db user_id learning_history_id
              session_date session_type quality_rating notes)
    as [[_ Hr] | [(lh & e & _ & _ & Hr) | (lh & a & b & c & d & _ & _ & Hr)]];
    cbv zeta in Hr; rewrite Hr in *; cbn [fst snd] in *.
  - rewrite stored_commit. exact Hrows.
  - discriminate Hs.
  - rewrite stored_commit. exact Hrows.
Qed.

(** X8.  A call that raises leaves its session record behind in the
    SQLAlchemy session, and the next call on that session that returns
    commits it: the record of the failed call is then in the committed
    [study_sessions] table, although the failed call changed no row of
    [learning_history]. *)
Theorem failed_session_is_committed_by_the_next_call (today : date) (db : Db)
    (user_id1 learning_history_id1 : Z) (session_date1 : date)
    (session_type1 : string) (quality_rating1 : option Z)
    (notes1 : option string)
    (user_id2 learning_history_id2 : Z) (session_date2 : date)
    (session_type2 : string) (quality_rating2 : option Z)
    (notes2 : option string) :
  let r1 := record_study_session today db user_id1 learning_history_id1
              session_date1 session_type1 quality_rating1 notes1 in
  let r2 := record_study_session today (snd r1) user_id2 learning_history_id2
              session_date2 session_type2 quality_rating2 notes2 in
  raises (fst r1) -> returns (fst r2) ->
  learning_history (session_rows (snd r1)) = learning_history (session_rows db)
  /\ stored (snd r1) = stored db
  /\ In (new_study_session db user_id1 learning_history_id1 session_date1
           session_type1 quality_rating1 notes1)
        (study_sessions (stored (snd r2))).
Proof.
  intros r1 r2 [e He] Hreturns.
  set (s1 := new_study_session db user_id1 learning_history_id1 session_date1
               session_type1 quality_rating1 notes1).
  assert (Hr1 : snd r1 = flush_for_query (add_study_session db s1)).
  { subst r1.
    destruct (record_study_session_cases today db user_id1
                learning_history_id1 session_date1 session_type1
                quality_rating1 notes1)
      as [[_ Hr] | [(lh & e' & _ & _ & Hr)
                   | (lh & a & b & c & d & _ & _ & Hr)]];
      cbv zeta in Hr; rewrite Hr in *; cbn [fst snd] in *;
      [discriminate He | reflexivity | discriminate He]. }
  split; [|split].
  - rewrite Hr1, session_rows_flush_for_query. reflexivity.
  - rewrite Hr1. now rewrite stored_flush_for_query.
  - apply (record_study_session_commits_pending today (snd r1) user_id2
             learning_history_id2 session_date2 session_type2 quality_rating2
             notes2 s1 Hreturns).
    rewrite Hr1, session_rows_flush_for_query.
    unfold session_rows. cbn. apply in_or_app. right.
    apply in_or_app. right. now left.
Qed.

Lemma failed_session_is_committed_by_the_next_call_witness :
  let r1 := record_study_session 0 (open_session one_topic) 1 1 2 "study"
              None None in
  let r2 := record_study_session 0 (snd r1) 1 1 3 "review" (Some 4) None in
  fst r1 = Raise TypeError
  /\ In (new_study_session (open_session one_topic) 1 1 2 "study" None None)
        (study_sessions (stored (snd r2))).
Proof.
  intros r1 r2. split; [reflexivity|].
  apply (failed_session_is_committed_by_the_next_call 0
           (open_session one_topic) 1 1 2 "study" None None
           1 1 3 "review" (Some 4) None).
  - exists TypeError. reflexivity.
  - eexists. reflexivity.
Defined.

Lemma session_rows_commit (db : Db) : session_rows (commit db) = session_rows db.
Proof.
  unfold session_rows, commit. cbn [live added flush].
  now rewrite append_tables_no_rows.
Qed.

(** X9.  Recording a review keeps every row valid.  If all
    [learning_history] rows of the session satisfy the invariants of a memory
    state and the rating is from 0 to 5, then after a call that returns all
    committed rows satisfy them. *)
Theorem record_study_session_keeps_rows_valid (today : date) (db : Db)
    (user_id learning_history_id : Z) (session_date : date)
    (session_type : string) (quality : Z) (notes : option string) :
  let r := record_study_session today db user_id learning_history_id
             session_date session_type (Some quality) notes in
  Forall (fun x => valid_row x = true) (learning_history (session_rows db)) ->
  0 <= quality <= 5 ->
  returns (fst r) ->
  Forall (fun x => valid_row x = true) (learning_history (stored (snd r))).
Proof.
  intros r Hvalid Hq [s Hs]. subst r.
  destruct (record_study_session_cases today db user_id learning_history_id
              session_date session_type (Some quality) notes)
    as [[_ Hr] | [(lh & e & _ & _ & Hr)
                 | (lh & a & b & c & d & Hsome & Hcalc & Hr)]];
    cbv zeta in Hr.
  - rewrite Hr. cbn [snd]. rewrite stored_commit, session_rows_flush_for_query.
    exact Hvalid.
  - rewrite Hr in Hs. discriminate Hs.
  - destruct (record_study_session_stored today db user_id learning_history_id
                session_date session_type (Some quality) notes lh a b c d
                Hsome Hcalc)
      as (_ & before & after & Hrows & _ & Hstored & _).
    cbv zeta in Hstored. rewrite Hstored.
    rewrite Hrows in Hvalid.
    apply Forall_app in Hvalid. destruct Hvalid as [Hbefore Hrest].
    apply Forall_app. split; [exact Hbefore|].
    inversion Hrest as [|? ? Hlh Hafter]; subst.
    constructor; [|exact Hafter].
    destruct (calculate_next_review_on_valid_state today _ _ _ quality
                (Some session_date) a b c d Hlh Hq Hcalc)
      as (_ & _ & _ & _ & Hfloat & Hfloor & Hi & Hrep).
    unfold valid_row, valid_state. cbn. rewrite Hfloat, Hfloor. cbn [andb].
    apply andb_true_iff. split; apply Z.leb_le; assumption.
Qed.

Lemma record_study_session_keeps_rows_valid_witness :
  Forall (fun x => valid_row x = true)
    (learning_history
       (stored (snd (record_study_session 0 (open_session one_topic) 1 1 2
                       "review" (Some 3) None)))).
Proof.
  apply (record_study_session_keeps_rows_valid 0 (open_session one_topic) 1 1
           2 "review" 3 None).
  - repeat constructor.
  - lia.
  - eexists. reflexivity.
Defined.

(** ** [update_topic_review] *)

Lemma calculate_next_review_today (today : date) (easiness_factor : float)
    (interval repetitions : Z) (quality : option Z) :
  calculate_next_review today easiness_factor interval repetitions quality None
  = calculate_next_review today easiness_factor interval repetitions quality
      (Some today).
Proof. reflexivity. Qed.

Lemma update_topic_review_cases (today : date) (db : Db)
    (learning_history_id : Z) (quality : option Z) :
  let db1 := flush_for_query db in
  let r := update_topic_review today db learning_history_id quality in
  (first (has_id learning_history_id) (visible_learning_history db) = None
   /\ r = (Ok tt, db1))
  \/ (exists lh e,
        first (has_id learning_history_id) (visible_learning_history db)
        = Some lh
        /\ calculate_next_review today (LearningHistory.easiness_factor lh)
             (LearningHistory.interval lh) (LearningHistory.repetitions lh)
             quality (Some today) = Raise e
        /\ r = (Raise e, db1))
  \/ (exists lh new_ef new_interval new_reps next_review,
        first (has_id learning_history_id) (visible_learning_history db)
        = Some lh
        /\ calculate_next_review today (LearningHistory.easiness_factor lh)
             (LearningHistory.interval lh) (LearningHistory.repetitions lh)
             quality (Some today)
           = Ok (new_ef, new_interval, new_reps, next_review)
        /\ r = (Ok tt,
                commit (write_learning_history db1
                          (reviewed lh new_ef new_interval new_reps today
                             next_review)))).
Proof.
  intros db1 r. subst r. unfold update_topic_review.
  unfold visible_learning_history, query_learning_history. cbn [fst].
  fold db1.
  destruct (first (has_id learning_history_id) (learning_history (live db1)))
    as [lh|]; [|left; now split].
  rewrite calculate_next_review_today.
  destruct (calculate_next_review today (LearningHistory.easiness_factor lh)
              (LearningHistory.interval lh) (LearningHistory.repetitions lh)
              quality (Some today))
    as [[[[new_ef new_interval] new_reps] next_review]|e] eqn:Hcalc.
  - right. right. exists lh, new_ef, new_interval, new_reps, next_review.
    now repeat split.
  - right. left. exists lh, e. now repeat split.
Qed.



(** X11.  [update_topic_review] commits only what it updated.  When no row
    has the key it returns without a commit: the committed tables and the
    rows of the session are as before, where [record_study_session] commits
    its session record all the same. *)
Theorem update_topic_review_without_row (today : date) (db : Db)
    (learning_history_id : Z) (quality : option Z) :
  (forall x, In x (visible_learning_history db) ->
             LearningHistory.id x <> learning_history_id) ->
  let r := update_topic_review today db learning_history_id quality in
  fst r = Ok tt
  /\ stored (snd r) = stored db
  /\ session_rows (snd r) = session_rows db.
Proof.
  intros Hmissing r.
  assert (Hnone : first (has_id learning_history_id)
                        (visible_learning_history db) = None).
  { apply first_none_iff. intros x Hx. unfold has_id.
    apply Z.eqb_neq. now apply Hmissing. }
  destruct (update_topic_review_cases today db learning_history_id quality)
    as [[_ Hr] | [(lh & e & H & _) | (lh & a & b & c & d & H & _)]];
    try (rewrite Hnone in H; discriminate H).
  cbv zeta in Hr. subst r. rewrite Hr. cbn [fst snd].
  split; [reflexivity|]. split.
  - now rewrite stored_flush_for_query.
  - apply session_rows_flush_for_query.
Qed.

Lemma update_topic_review_without_row_witness :
  let r := update_topic_review 0 (open_session one_topic) 9 None in
  fst r = Ok tt
  /\ stored (snd r) = stored (open_session one_topic)
  /\ session_rows (snd r) = session_rows (open_session one_topic).
Proof.
  apply (update_topic_review_without_row 0 (open_session one_topic) 9 None).
  intros x Hx Hid. vm_compute in Hx. destruct Hx as [Hx|[]].
  subst x. discriminate Hid.
Defined.

(** ** Reading the study sessions back *)

Lemma next_id_fresh (ids : list Z) (i : Z) : In i ids -> i < next_id ids.
Proof.
  unfold next_id. induction ids as [|j ids IH]; intros Hin; [destruct Hin|].
  cbn [fold_right]. destruct Hin as [->|Hin]; [lia|].
  specialize (IH Hin). lia.
Qed.

Lemma visible_after_commit (db : Db) :
  live (flush_for_query (commit db)) = session_rows db.
Proof.
  unfold flush_for_query, commit, session_rows.
  cbn [autoflush live added flush].
  destruct (autoflush db); cbn [live flush added];
    now rewrite ?append_tables_no_rows.
Qed.

Lemma study_sessions_after_record (today : date) (db : Db)
    (user_id learning_history_id : Z) (session_date : date)
    (session_type : string) (quality_rating : option Z)
    (notes : option string) (s : StudySession.t) :
  let r := record_study_session today db user_id learning_history_id
             session_date session_type quality_rating notes in
  fst r = Ok s ->
  s = new_study_session db user_id learning_history_id session_date
        session_type quality_rating notes
  /\ study_sessions (live (flush_for_query (snd r)))
     = study_sessions (session_rows db) ++ [s].
Proof.
  intros r Hok.
  set (s0 := new_study_session db user_id learning_history_id session_date
               session_type quality_rating notes).
  assert (Hsessions : study_sessions
                        (session_rows (flush_for_query (add_study_session db s0)))
                      = study_sessions (session_rows db) ++ [s0]).
  { rewrite session_rows_flush_for_query.
    unfold session_rows. cbn. now rewrite app_assoc. }
  destruct (record_study_session_cases today db user_id learning_history_id
              session_date session_type quality_rating notes)
    as [[_ Hr] | [(lh & e & _ & _ & Hr)
                 | (lh & a & b & c & d & _ & _ & Hr)]];
    cbv zeta in Hr; fold s0 in Hr; subst r; rewrite Hr in *; cbn [fst snd] in *;
    try discriminate Hok; injection Hok as <-;
    (split; [reflexivity|]); rewrite visible_after_commit.
  - exact Hsessions.
  - exact Hsessions.
Qed.

(** X12.  A recorded session is read back.  After a call of
    [record_study_session] that returns, [get_sessions_by_date] for the same
    user and date gives the sessions of that user and date the session held
    before, in their order, followed by the returned one, whose key is
    greater than every key that was there. *)
Theorem recorded_session_is_found_by_date (today : date) (db : Db)
    (user_id learning_history_id : Z) (session_date : date)
    (session_type : string) (quality_rating : option Z)
    (notes : option string) (s : StudySession.t) :
  let r := record_study_session today db user_id learning_history_id
             session_date session_type quality_rating notes in
  fst r = Ok s ->
  fst (get_sessions_by_date (snd r) user_id session_date)
  = filter (fun x => (StudySession.user_id x =? user_id)
                     && (StudySession.session_date x =? session_date))
           (study_sessions (session_rows db)) ++ [s]
  /\ forall x, In x (study_sessions (session_rows db)) ->
               StudySession.id x < StudySession.id s.
Proof.
  intros r Hok.
  destruct (study_sessions_after_record today db user_id learning_history_id
              session_date session_type quality_rating notes s Hok)
    as [Hs Hrows].
  fold r in Hrows. split.
  - unfold get_sessions_by_date, query_study_sessions. cbn [fst].
    rewrite Hrows, filter_app. f_equal.
    subst s. cbn [filter new_study_session StudySession.user_id
                    StudySession.session_date].
    now rewrite !Z.eqb_refl.
  - intros x Hx. subst s. cbn [new_study_session StudySession.id].
    apply next_id_fresh. now apply in_map.
Qed.

Lemma recorded_session_is_found_by_date_witness :
  let db := open_session one_topic in
  let s := new_study_session db 1 1 2 "review" (Some 4) None in
  let r := record_study_session 0 db 1 1 2 "review" (Some 4) None in
  fst (get_sessions_by_date (snd r) 1 2)
  = filter (fun x => (StudySession.user_id x =? 1)
                     && (StudySession.session_date x =? 2))
           (study_sessions (session_rows db)) ++ [s]
  /\ forall x, In x (study_sessions (session_rows db)) ->
               StudySession.id x < StudySession.id s.
Proof.
  intros db s r.
  apply (recorded_session_is_found_by_date 0 db 1 1 2 "review" (Some 4) None s).
  reflexivity.
Defined.

Lemma insert_by_date_desc_permutation (s : StudySession.t)
    (l : list StudySession.t) :
  Permutation (insert_by_date_desc s l) (s :: l).
Proof.
  induction l as [|x l IH]; cbn [insert_by_date_desc]; [reflexivity|].
  destruct (StudySession.session_date s <? StudySession.session_date x).
  - rewrite IH. apply perm_swap.
  - reflexivity.
Qed.

Lemma order_by_session_date_desc_permutation (l : list StudySession.t) :
  Permutation (order_by_session_date_desc l) l.
Proof.
  induction l as [|x l IH]; [reflexivity|].
  unfold order_by_session_date_desc in *. cbn [fold_right].
  rewrite insert_by_date_desc_permutation. now apply perm_skip.
Qed.

Local Abbreviation not_earlier :=
  (fun x y : StudySession.t =>
     StudySession.session_date y <= StudySession.session_date x).

Lemma insert_by_date_desc_sorted (s : StudySession.t)
    (l : list StudySession.t) :
  StronglySorted not_earlier l ->
  StronglySorted not_earlier (insert_by_date_desc s l).
Proof.
  induction 1 as [|x l Hsorted IH Hhead]; cbn [insert_by_date_desc].
  - constructor; constructor.
  - destruct (StudySession.session_date s <? StudySession.session_date x)
      eqn:E.
    + apply Z.ltb_lt in E. constructor; [exact IH|].
      apply Forall_forall. intros y Hy.
      apply (Permutation_in _ (insert_by_date_desc_permutation s l)) in Hy.
      destruct Hy as [<-|Hy]; [lia|].
      now apply (proj1 (Forall_forall _ _) Hhead).
    + apply Z.ltb_ge in E. constructor; [now constructor|].
      constructor; [exact E|].
      apply Forall_forall. intros y Hy.
      pose proof (proj1 (Forall_forall _ _) Hhead y Hy). cbv beta in *. lia.
Qed.

Lemma order_by_session_date_desc_sorted (l : list StudySession.t) :
  StronglySorted not_earlier (order_by_session_date_desc l).
Proof.
  induction l as [|x l IH]; [constructor|].
  now apply insert_by_date_desc_sorted.
Qed.

Lemma sorted_split {A : Type} (R : A -> A -> Prop) (a b : list A) :
  StronglySorted R (a ++ b) ->
  StronglySorted R a /\ forall x y, In x a -> In y b -> R x y.
Proof.
  induction a as [|h a IH]; cbn [app]; intros Hsorted.
  - split; [constructor|]. intros x y [].
  - apply StronglySorted_inv in Hsorted. destruct Hsorted as [Hsorted Hhead].
    destruct (IH Hsorted) as [Ha Hab]. split.
    + constructor; [exact Ha|].
      apply Forall_forall. intros y Hy.
      apply (proj1 (Forall_forall _ _) Hhead). apply in_or_app. now left.
    + intros x y [<-|Hx] Hy.
      * apply (proj1 (Forall_forall _ _) Hhead). apply in_or_app. now right.
      * now apply Hab.
Qed.

(** X13.  [get_study_sessions] gives the most recent sessions of the user.
    For a limit that is not negative the result holds [limit] rows, or all
    the user's sessions when there are fewer; its dates never increase; and
    together with the rows it leaves out it is the user's sessions, none of
    those left out being later than one that is returned. *)
Theorem get_study_sessions_most_recent (db : Db) (user_id limit : Z) :
  0 <= limit ->
  let found := fst (get_study_sessions db user_id limit) in
  let mine := filter (fun s => StudySession.user_id s =? user_id)
                     (fst (query_study_sessions db)) in
  Z.of_nat (List.length found) = Z.min limit (Z.of_nat (List.length mine))
  /\ StronglySorted
       (fun x y => StudySession.session_date y <= StudySession.session_date x)
       found
  /\ exists rest,
       Permutation (found ++ rest) mine
       /\ forall x y, In x found -> In y rest ->
                      StudySession.session_date y
                      <= StudySession.session_date x.
Proof.
  intros Hlimit found mine.
  unfold get_study_sessions, query_study_sessions in found.
  cbn [fst] in found. unfold query_study_sessions in mine. cbn [fst] in mine.
  fold mine in found.
  unfold limit_rows in found.
  destruct (limit <? 0) eqn:E; [apply Z.ltb_lt in E; lia|].
  set (sorted := order_by_session_date_desc mine) in *.
  pose proof (order_by_session_date_desc_permutation mine) as Hperm.
  pose proof (order_by_session_date_desc_sorted mine) as Hsorted.
  fold sorted in Hperm, Hsorted.
  rewrite <- (firstn_skipn (Z.to_nat limit) sorted) in Hsorted.
  apply sorted_split in Hsorted. destruct Hsorted as [Hfound Hrest].
  split; [|split; [exact Hfound|]].
  - subst found. rewrite length_firstn.
    rewrite (Permutation_length Hperm). lia.
  - exists (skipn (Z.to_nat limit) sorted). split; [|exact Hrest].
    subst found. now rewrite firstn_skipn.
Qed.

Lemma get_study_sessions_most_recent_witness :
  let db := snd (record_study_session 0
                   (snd (record_study_session 0 (open_session one_topic)
                           1 1 2 "review" (Some 4) None))
                   1 1 5 "review" (Some 5) None) in
  let found := fst (get_study_sessions db 1 1) in
  let mine := filter (fun s => StudySession.user_id s =? 1)
                     (fst (query_study_sessions db)) in
  Z.of_nat (List.length found) = Z.min 1 (Z.of_nat (List.length mine))
  /\ StronglySorted
       (fun x y => StudySession.session_date y <= StudySession.session_date x)
       found
  /\ exists rest,
       Permutation (found ++ rest) mine
       /\ forall x y, In x found -> In y rest ->
                      StudySession.session_date y
                      <= StudySession.session_date x.
Proof.
  intros db.
  apply (get_study_sessions_most_recent db 1 1). lia.
Defined.

(** ** Newsletters and their items *)

Section AddCurriculumItemsRows.

Variable today : date.
Variable newsletter_id : Z.

Lemma add_curriculum_items_body_no_owner (db : Db)
    (item : CurriculumItemSchema.t) :
  owner db newsletter_id = None ->
  add_curriculum_items_body today db newsletter_id item
  = (Raise AttributeError, looked_up db newsletter_id item).
Proof.
  intros Howner.
  pose proof (visible_after_add_curriculum_item db
                (new_curriculum_item db newsletter_id item)) as [_ [Hn Hu]].
  unfold owner in Howner. rewrite <- Hn, <- Hu in Howner.
  unfold add_curriculum_items_body, looked_up.
  set (db0 := add_curriculum_item db (new_curriculum_item db newsletter_id item)) in *.
  unfold visible_newsletters, visible_users in *.
  unfold query_newsletters in *. cbn [fst] in Howner.
  destruct (first (fun n => Newsletter.id n =? newsletter_id)
              (newsletters (live (flush_for_query db0)))) as [nl|];
    [|reflexivity].
  unfold newsletter_user.
  destruct (Newsletter.user_id nl) as [uid|]; [|reflexivity].
  unfold query_users in *. cbn [fst] in Howner.
  now rewrite flush_for_query_idempotent, Howner.
Qed.

Lemma session_rows_looked_up (db : Db) (item : CurriculumItemSchema.t) :
  session_rows (looked_up db newsletter_id item)
  = {| users := users (session_rows db);
       newsletters := newsletters (session_rows db);
       curriculum_items :=
         curriculum_items (session_rows db)
         ++ [new_curriculum_item db newsletter_id item];
       learning_history := learning_history (session_rows db);
       study_sessions := study_sessions (session_rows db) |}.
Proof.
  unfold looked_up. rewrite session_rows_flush_for_query.
  unfold session_rows, append_tables. cbn. now rewrite app_assoc.
Qed.

Lemma session_rows_add_learning_history (db : Db) (l : LearningHistory.t) :
  session_rows (add_learning_history db l)
  = {| users := users (session_rows db);
       newsletters := newsletters (session_rows db);
       curriculum_items := curriculum_items (session_rows db);
       learning_history := learning_history (session_rows db) ++ [l];
       study_sessions := study_sessions (session_rows db) |}.
Proof.
  unfold session_rows, append_tables. cbn. now rewrite app_assoc.
Qed.

Lemma looked_up_keeps (db : Db) (item : CurriculumItemSchema.t) :
  autoflush (looked_up db newsletter_id item) = autoflush db
  /\ stored (looked_up db newsletter_id item) = stored db.
Proof.
  unfold looked_up, flush_for_query. cbn [autoflush add_curriculum_item].
  destruct (autoflush db) eqn:E; split; cbn; auto.
Qed.

(** The rows of the session after one turn of the loop. *)
Lemma add_curriculum_items_body_rows (db : Db) (user : User.t)
    (item : CurriculumItemSchema.t) :
  owner db newsletter_id = Some user ->
  let db' := snd (add_curriculum_items_body today db newsletter_id item) in
  autoflush db' = autoflush db
  /\ stored db' = stored db
  /\ users (session_rows db') = users (session_rows db)
  /\ newsletters (session_rows db') = newsletters (session_rows db)
  /\ study_sessions (session_rows db') = study_sessions (session_rows db)
  /\ curriculum_items (session_rows db')
     = curriculum_items (session_rows db)
       ++ [new_curriculum_item db newsletter_id item]
  /\ learning_history (session_rows db')
     = learning_history (session_rows db)
       ++ match first (same_topic (User.id user)
                         (CurriculumItemSchema.subject item)
                         (CurriculumItemSchema.topic item))
                      (visible_learning_history db) with
          | Some _ => []
          | None =>
              [new_learning_history (looked_up db newsletter_id item) user
                 item f2_5 1 0
                 (add_days (CurriculumItemSchema.start_date item) 1)]
          end.
Proof.
  intros Howner db'. subst db'.
  rewrite (add_curriculum_items_body_run today newsletter_id db user item
             Howner).
  pose proof (session_rows_looked_up db item) as Hrows.
  destruct (looked_up_keeps db item) as [Hflush Hstored].
  destruct (first _ (visible_learning_history db)); cbn [snd].
  - rewrite Hrows. cbn. rewrite app_nil_r. repeat split; assumption.
  - rewrite session_rows_add_learning_history, Hrows. cbn.
    repeat split; assumption.
Qed.

(** The rows of the session when the loop has run over [items]: one new
    [curriculum_items] row per item, in the order of the list, and new
    [learning_history] rows in their initial state, all after the rows that
    were there. *)
Lemma add_curriculum_items_loop_rows (items : list CurriculumItemSchema.t) :
  forall (db : Db) (user : User.t),
    owner db newsletter_id = Some user ->
    let db' := snd (add_curriculum_items_loop today db newsletter_id items) in
    autoflush db' = autoflush db
    /\ stored db' = stored db
    /\ users (session_rows db') = users (session_rows db)
    /\ newsletters (session_rows db') = newsletters (session_rows db)
    /\ study_sessions (session_rows db') = study_sessions (session_rows db)
    /\ exists cs ls,
         curriculum_items (session_rows db')
         = curriculum_items (session_rows db) ++ cs
         /\ map item_of cs = items
         /\ Forall (fun c => CurriculumItem.newsletter_id c = newsletter_id) cs
         /\ learning_history (session_rows db')
            = learning_history (session_rows db) ++ ls
         /\ Forall (fun l => exists item, In item items
                                          /\ initial_row (User.id user) item l)
                   ls.
Proof.
  induction items as [|item items IH]; intros db user Howner db'.
  - subst db'. cbn [add_curriculum_items_loop snd].
    repeat split; try reflexivity.
    exists [], []. rewrite !app_nil_r. repeat split; constructor.
  - subst db'. cbn [add_curriculum_items_loop].
    pose proof (owner_after_body today newsletter_id db user item Howner)
      as Hnext.
    destruct (add_curriculum_items_body_rows db user item Howner)
      as (Hf & Hs & Hu & Hn & Hss & Hc & Hl).
    assert (Hok : fst (add_curriculum_items_body today db newsletter_id item)
                  = Ok tt).
    { rewrite (add_curriculum_items_body_run today newsletter_id db user item
                 Howner).
      now destruct (first _ (visible_learning_history db)). }
    destruct (add_curriculum_items_body today db newsletter_id item)
      as [[[]|e] db1]; [|discriminate Hok].
    cbn [snd] in *.
    destruct (IH db1 user Hnext) as (Hf' & Hs' & Hu' & Hn' & Hss' & cs & ls
                                     & Hc' & Hcs & Hid & Hl' & Hls).
    rewrite Hf', Hs', Hu', Hn', Hss', Hf, Hs, Hu, Hn, Hss.
    repeat split; try reflexivity.
    exists (new_curriculum_item db newsletter_id item :: cs).
    eexists. split; [|split; [|split; [|split]]].
    + rewrite Hc', Hc, <- app_assoc. reflexivity.
    + cbn [map]. rewrite Hcs. f_equal. now destruct item.
    + constructor; [reflexivity | exact Hid].
    + rewrite Hl', Hl, <- app_assoc. reflexivity.
    + apply Forall_app. split.
      * destruct (first _ (visible_learning_history db)); constructor;
          [|constructor].
        exists item. split; [now left|]. repeat split.
      * eapply Forall_impl; [|exact Hls].
        intros l (i & Hi & Hrow). exists i. split; [now right | exact Hrow].
Qed.

End AddCurriculumItemsRows.

Lemma same_topic_key (user_id : Z) (subject topic : string)
    (x : LearningHistory.t) :
  same_topic user_id subject topic x = true
  <-> topic_key x = (user_id, subject, topic).
Proof.
  unfold same_topic, topic_key. split.
  - intros H. apply andb_prop in H. destruct H as [H Ht].
    apply andb_prop in H. destruct H as [Hu Hs].
    apply Z.eqb_eq in Hu. apply String.eqb_eq in Hs, Ht. congruence.
  - intros H. injection H as -> -> ->.
    now rewrite Z.eqb_refl, !String.eqb_refl.
Qed.

(** X14.  [add_curriculum_items] only appends.  When the newsletter leads
    to a user the call returns with everything committed; the
    [curriculum_items] table is what the session held followed by one row
    per item, in the order of the list, with the fields of the item and the
    key of the newsletter; the [learning_history] table is what the session
    held followed by rows of that user in the initial state of one of the
    items; the other tables are what the session held. *)
Theorem add_curriculum_items_appends (today : date) (db : Db)
    (newsletter_id : Z) (user : User.t)
    (items : list CurriculumItemSchema.t) :
  owner db newsletter_id = Some user ->
  let r := add_curriculum_items today db newsletter_id items in
  fst r = Ok tt
  /\ session_rows (snd r) = stored (snd r)
  /\ users (stored (snd r)) = users (session_rows db)
  /\ newsletters (stored (snd r)) = newsletters (session_rows db)
  /\ study_sessions (stored (snd r)) = study_sessions (session_rows db)
  /\ exists cs ls,
       curriculum_items (stored (snd r))
       = curriculum_items (session_rows db) ++ cs
       /\ map item_of cs = items
       /\ Forall (fun c => CurriculumItem.newsletter_id c = newsletter_id) cs
       /\ learning_history (stored (snd r))
          = learning_history (session_rows db) ++ ls
       /\ Forall (fun l => exists item, In item items
                                        /\ initial_row (User.id user) item l)
                 ls.
Proof.
  intros Howner r.
  destruct (add_curriculum_items_loop_runs today newsletter_id items db user
              Howner) as [Hok _].
  destruct (add_curriculum_items_loop_rows today newsletter_id items db user
              Howner) as (_ & _ & Hu & Hn & Hss & Hrows).
  subst r. rewrite (add_curriculum_items_commits today db newsletter_id items Hok).
  cbn [fst snd]. rewrite session_rows_commit, stored_commit.
  repeat split; assumption.
Qed.

Lemma add_curriculum_items_appends_witness :
  let db := open_session one_topic in
  let r := add_curriculum_items 0 db 1 [fractions_again; decimals] in
  fst r = Ok tt
  /\ session_rows (snd r) = stored (snd r)
  /\ users (stored (snd r)) = users (session_rows db)
  /\ newsletters (stored (snd r)) = newsletters (session_rows db)
  /\ study_sessions (stored (snd r)) = study_sessions (session_rows db)
  /\ exists cs ls,
       curriculum_items (stored (snd r))
       = curriculum_items (session_rows db) ++ cs
       /\ map item_of cs = [fractions_again; decimals]
       /\ Forall (fun c => CurriculumItem.newsletter_id c = 1) cs
       /\ learning_history (stored (snd r))
          = learning_history (session_rows db) ++ ls
       /\ Forall (fun l => exists item, In item [fractions_again; decimals]
                                        /\ initial_row 1 item l)
                 ls.
Proof.
  intros db.
  apply (add_curriculum_items_appends 0 db 1
           {| User.id := 1; User.name := "Asha" |} [fractions_again; decimals]).
  reflexivity.
Defined.

Section TopicsOfANewsletter.

Variable today : date.
Variable newsletter_id : Z.

Lemma add_curriculum_items_loop_keys (items : list CurriculumItemSchema.t) :
  forall (db : Db) (user : User.t),
    owner db newsletter_id = Some user ->
    autoflush db = true ->
    NoDup (map topic_key (learning_history (session_rows db))) ->
    NoDup (map topic_key
             (learning_history
                (session_rows
                   (snd (add_curriculum_items_loop today db newsletter_id
                           items))))).
Proof.
  induction items as [|item items IH]; intros db user Howner Hflush Hkeys;
    [exact Hkeys|].
  cbn [add_curriculum_items_loop].
  pose proof (owner_after_body today newsletter_id db user item Howner)
    as Hnext.
  destruct (add_curriculum_items_body_rows today newsletter_id db user item
              Howner) as (Hf & _ & _ & _ & _ & _ & Hl).
  assert (Hok : fst (add_curriculum_items_body today db newsletter_id item)
                = Ok tt).
  { rewrite (add_curriculum_items_body_run today newsletter_id db user item
               Howner).
    now destruct (first _ (visible_learning_history db)). }
  destruct (add_curriculum_items_body today db newsletter_id item)
    as [[[]|e] db1]; [|discriminate Hok].
  cbn [snd] in *.
  apply (IH db1 user Hnext); [congruence|].
  rewrite Hl, (visible_with_autoflush db Hflush).
  destruct (first _ (learning_history (session_rows db))) eqn:Hfirst.
  - now rewrite app_nil_r.
  - rewrite map_app. apply NoDup_app; [exact Hkeys | |].
    + constructor; [intros [] | constructor].
    + intros k Hk [<-|[]].
      apply in_map_iff in Hk. destruct Hk as (x & Hx & Hin).
      pose proof (proj1 (first_none_iff _ _) Hfirst x Hin) as Hno.
      assert (Hyes : same_topic (User.id user)
                       (CurriculumItemSchema.subject item)
                       (CurriculumItemSchema.topic item) x = true).
      { apply same_topic_key. exact Hx. }
      congruence.
Qed.

Lemma add_curriculum_items_loop_tracks (items : list CurriculumItemSchema.t) :
  forall (db : Db) (user : User.t),
    owner db newsletter_id = Some user ->
    forall item, In item items ->
      exists l,
        In l (learning_history
                (session_rows
                   (snd (add_curriculum_items_loop today db newsletter_id
                           items))))
        /\ topic_key l = (User.id user, CurriculumItemSchema.subject item,
                          CurriculumItemSchema.topic item).
Proof.
  induction items as [|head items IH]; intros db user Howner item Hitem;
    [destruct Hitem|].
  cbn [add_curriculum_items_loop].
  pose proof (owner_after_body today newsletter_id db user head Howner)
    as Hnext.
  destruct (add_curriculum_items_body_rows today newsletter_id db user head
              Howner) as (_ & _ & _ & _ & _ & _ & Hl).
  assert (Hok : fst (add_curriculum_items_body today db newsletter_id head)
                = Ok tt).
  { rewrite (add_curriculum_items_body_run today newsletter_id db user head
               Howner).
    now destruct (first _ (visible_learning_history db)). }
  destruct (add_curriculum_items_body today db newsletter_id head)
    as [[[]|e] db1]; [|discriminate Hok].
  cbn [snd] in *.
  destruct Hitem as [->|Hitem]; [|now apply IH].
  destruct (add_curriculum_items_loop_rows today newsletter_id items db1 user
              Hnext) as (_ & _ & _ & _ & _ & cs & ls & _ & _ & _ & Hrows & _).
  rewrite Hrows, Hl.
  destruct (first _ (visible_learning_history db)) as [x|] eqn:Hfirst.
  - apply first_some in Hfirst. destruct Hfirst as [Hin Hsame].
    exists x. split; [|now apply same_topic_key].
    destruct (session_rows_visible db) as (unread & Hvisible & _).
    rewrite Hvisible. rewrite app_nil_r.
    apply in_or_app. left. apply in_or_app. now left.
  - exists (new_learning_history (looked_up db newsletter_id item) user item
              f2_5 1 0 (add_days (CurriculumItemSchema.start_date item) 1)).
    split; [|reflexivity].
    apply in_or_app. left. apply in_or_app. right. now left.
Qed.

End TopicsOfANewsletter.

(** X15.  With autoflush on, [add_curriculum_items] tracks every topic
    exactly once.  If no two [learning_history] rows of the session are for
    the same user, subject and topic, then none are in the table the call
    commits, however often the list names a topic; and every item of the
    list has its row there, under the newsletter's user. *)
Theorem add_curriculum_items_tracks_each_topic_once (today : date) (db : Db)
    (newsletter_id : Z) (user : User.t)
    (items : list CurriculumItemSchema.t) :
  owner db newsletter_id = Some user ->
  autoflush db = true ->
  NoDup (map topic_key (learning_history (session_rows db))) ->
  let rows :=
    learning_history
      (stored (snd (add_curriculum_items today db newsletter_id items))) in
  NoDup (map topic_key rows)
  /\ forall item, In item items ->
       exists l, In l rows
                 /\ topic_key l
                    = (User.id user, CurriculumItemSchema.subject item,
                       CurriculumItemSchema.topic item).
Proof.
  intros Howner Hflush Hkeys rows.
  destruct (add_curriculum_items_loop_runs today newsletter_id items db user
              Howner) as [Hok _].
  subst rows.
  rewrite (add_curriculum_items_commits today db newsletter_id items Hok).
  cbn [snd]. rewrite stored_commit. split.
  - now apply (add_curriculum_items_loop_keys today newsletter_id items db user).
  - now apply (add_curriculum_items_loop_tracks today newsletter_id items db
                 user).
Qed.

Lemma add_curriculum_items_tracks_each_topic_once_witness :
  let rows :=
    learning_history
      (stored (snd (add_curriculum_items 0 (open_session one_topic) 1
                      [decimals; fractions_again; decimals]))) in
  NoDup (map topic_key rows)
  /\ forall item, In item [decimals; fractions_again; decimals] ->
       exists l, In l rows
                 /\ topic_key l
                    = (1, CurriculumItemSchema.subject item,
                       CurriculumItemSchema.topic item).
Proof.
  apply (add_curriculum_items_tracks_each_topic_once 0
           (open_session one_topic) 1 {| User.id := 1; User.name := "Asha" |}
           [decimals; fractions_again; decimals]).
  - reflexivity.
  - reflexivity.
  - constructor; [intros [] | constructor].
Defined.

(** X16.  A newsletter key that leads to no user makes
    [add_curriculum_items] fail on the first item.  The call raises
    [AttributeError] and commits nothing, but the [curriculum_items] row of
    the first item stays in the session, where a later commit of the same
    session writes it; no [learning_history] row is created. *)
Theorem add_curriculum_items_without_owner (today : date) (db : Db)
    (newsletter_id : Z) (item : CurriculumItemSchema.t)
    (items : list CurriculumItemSchema.t) :
  owner db newsletter_id = None ->
  let r := add_curriculum_items today db newsletter_id (item :: items) in
  fst r = Raise AttributeError
  /\ stored (snd r) = stored db
  /\ curriculum_items (session_rows (snd r))
     = curriculum_items (session_rows db)
       ++ [new_curriculum_item db newsletter_id item]
  /\ learning_history (session_rows (snd r))
     = learning_history (session_rows db)
  /\ curriculum_items (stored (commit (snd r)))
     = curriculum_items (session_rows db)
       ++ [new_curriculum_item db newsletter_id item].
Proof.
  intros Howner r. subst r.
  unfold add_curriculum_items. cbn [add_curriculum_items_loop].
  rewrite (add_curriculum_items_body_no_owner today newsletter_id db item
             Howner).
  cbn [fst snd]. rewrite stored_commit.
  rewrite (session_rows_looked_up newsletter_id db item).
  destruct (looked_up_keeps newsletter_id db item) as [_ Hstored].
  repeat split; try reflexivity. exact Hstored.
Qed.

Lemma add_curriculum_items_without_owner_witness :
  let db := open_session one_topic in
  let r := add_curriculum_items 0 db 7 [decimals; fractions_again] in
  fst r = Raise AttributeError
  /\ stored (snd r) = stored db
  /\ curriculum_items (session_rows (snd r))
     = curriculum_items (session_rows db) ++ [new_curriculum_item db 7 decimals]
  /\ learning_history (session_rows (snd r))
     = learning_history (session_rows db)
  /\ curriculum_items (stored (commit (snd r)))
     = curriculum_items (session_rows db) ++ [new_curriculum_item db 7 decimals].
Proof.
  intros db.
  apply (add_curriculum_items_without_owner 0 db 7 decimals [fractions_again]).
  reflexivity.
Defined.

Lemma first_fresh {A : Type} (p : A -> bool) (l : list A) (a : A) :
  (forall x, In x l -> p x = false) -> p a = true ->
  first p (l ++ [a]) = Some a.
Proof.
  unfold first. intros Hl Ha.
  induction l as [|x l IH]; cbn [app find]; [now rewrite Ha|].
  rewrite (Hl x (or_introl eq_refl)). apply IH.
  intros y Hy. apply Hl. now right.
Qed.

Lemma visible_after_create_newsletter (db : Db)
    (newsletter : NewsletterUpload.t) :
  let r := create_newsletter db newsletter in
  visible_newsletters (snd r) = newsletters (session_rows db) ++ [fst r]
  /\ visible_users (snd r) = users (session_rows db).
Proof.
  unfold visible_newsletters, visible_users, query_newsletters, query_users,
    create_newsletter.
  cbn [fst snd]. rewrite visible_after_commit.
  unfold session_rows, append_tables. cbn.
  now rewrite app_assoc.
Qed.

Lemma owner_after_create_newsletter (db : Db)
    (newsletter : NewsletterUpload.t) :
  let r := create_newsletter db newsletter in
  first (fun n => Newsletter.id n =? Newsletter.id (fst r))
        (visible_newsletters (snd r)) = Some (fst r)
  /\ owner (snd r) (Newsletter.id (fst r))
     = first (fun u => User.id u =? NewsletterUpload.user_id newsletter)
             (users (session_rows db)).
Proof.
  intros r.
  destruct (visible_after_create_newsletter db newsletter) as [Hn Hu].
  fold r in Hn, Hu.
  assert (Hfound : first (fun n => Newsletter.id n =? Newsletter.id (fst r))
                         (visible_newsletters (snd r)) = Some (fst r)).
  { rewrite Hn. apply first_fresh; [|apply Z.eqb_refl].
    intros x Hx. apply Z.eqb_neq.
    assert (Newsletter.id x < Newsletter.id (fst r)); [|lia].
    subst r. cbn [create_newsletter fst Newsletter.id].
    apply next_id_fresh. now apply in_map. }
  split; [exact Hfound|].
  unfold owner. rewrite Hfound, Hu. reflexivity.
Qed.

(** X17.  A newsletter that was just created takes its items if its user
    exists.  [create_newsletter] commits the row after the newsletters the
    session held, with a key greater than theirs, and the lookup by that key
    finds it.  [add_curriculum_items] called next with that key raises only
    when the list of items is not empty and [users] has no row with the
    [user_id] of the upload. *)
Theorem created_newsletter_takes_items (db : Db)
    (newsletter : NewsletterUpload.t) :
  let db_newsletter := fst (create_newsletter db newsletter) in
  let db' := snd (create_newsletter db newsletter) in
  session_rows db' = stored db'
  /\ newsletters (stored db') = newsletters (session_rows db) ++ [db_newsletter]
  /\ (forall x, In x (newsletters (session_rows db)) ->
                Newsletter.id x < Newsletter.id db_newsletter)
  /\ first (fun n => Newsletter.id n =? Newsletter.id db_newsletter)
           (visible_newsletters db') = Some db_newsletter
  /\ forall today items,
       raises (fst (add_curriculum_items today db'
                      (Newsletter.id db_newsletter) items))
       <-> items <> []
           /\ forall u, In u (users (session_rows db)) ->
                        User.id u <> NewsletterUpload.user_id newsletter.
Proof.
  intros db_newsletter db'.
  destruct (owner_after_create_newsletter db newsletter) as [Hfound Howner].
  fold db_newsletter db' in Hfound, Howner.
  split; [|split; [|split; [|split; [exact Hfound|]]]].
  - subst db'. unfold create_newsletter. cbn [snd].
    now rewrite session_rows_commit, stored_commit.
  - subst db' db_newsletter. unfold create_newsletter. cbn [fst snd].
    rewrite stored_commit. unfold session_rows, append_tables. cbn.
    now rewrite app_assoc.
  - intros x Hx. subst db_newsletter.
    cbn [create_newsletter fst Newsletter.id].
    apply next_id_fresh. now apply in_map.
  - intros today items.
    destruct (first (fun u => User.id u =? NewsletterUpload.user_id newsletter)
                    (users (session_rows db))) as [user|] eqn:Huser.
    + destruct (add_curriculum_items_loop_runs today
                  (Newsletter.id db_newsletter) items db' user Howner)
        as [Hok _].
      rewrite (add_curriculum_items_commits today db'
                 (Newsletter.id db_newsletter) items Hok).
      apply first_some in Huser. destruct Huser as [Hin Hid].
      apply Z.eqb_eq in Hid. split.
      * intros [e He]. discriminate He.
      * intros [_ Hnone]. destruct (Hnone user Hin Hid).
    + pose proof (proj1 (first_none_iff _ _) Huser) as Hnone.
      destruct items as [|item items].
      * split; [intros [e He]; discriminate He | intros [Hitems _]].
        now destruct Hitems.
      * unfold add_curriculum_items. cbn [add_curriculum_items_loop].
        rewrite (add_curriculum_items_body_no_owner today
                   (Newsletter.id db_newsletter) db' item Howner).
        split.
        -- intros _. split; [discriminate|].
           intros u Hu. apply Z.eqb_neq. now apply Hnone.
        -- intros _. now exists AttributeError.
Qed.

Lemma visible_newsletters_in_session (db : Db) (n : Newsletter.t) :
  In n (visible_newsletters db) -> In n (newsletters (session_rows db)).
Proof.
  unfold visible_newsletters, query_newsletters, flush_for_query, session_rows.
  destruct (autoflush db); cbn; intros H; [exact H|].
  apply in_or_app. now left.
Qed.

Lemma owner_newsletter (db : Db) (newsletter_id : Z) (user : User.t) :
  owner db newsletter_id = Some user ->
  exists n, In n (visible_newsletters db)
            /\ Newsletter.id n = newsletter_id
            /\ Newsletter.user_id n = Some (User.id user).
Proof.
  unfold owner. intros Howner.
  destruct (first (fun n => Newsletter.id n =? newsletter_id)
                  (visible_newsletters db)) as [n|] eqn:Hn; [|discriminate].
  apply first_some in Hn. destruct Hn as [Hin Hid]. apply Z.eqb_eq in Hid.
  destruct (Newsletter.user_id n) as [uid|] eqn:Huid; [|discriminate].
  apply first_some in Howner. destruct Howner as [_ Huser].
  apply Z.eqb_eq in Huser.
  exists n. repeat split; [exact Hin | exact Hid | congruence].
Qed.

(** X18.  [get_current_curriculum] joins the two tables on the newsletter
    key.  A row is returned exactly when it is a [curriculum_items] row the
    query reads, some newsletter the query reads has the row's
    [newsletter_id] as its key and the given user as its [user_id], the
    row's [start_date] is not after the date, and its [end_date], if it has
    one, is not before it.  A newsletter without [user_id] brings in no
    row. *)
Theorem get_current_curriculum_exact (db : Db) (user_id : Z)
    (current_date : date) (c : CurriculumItem.t) :
  In c (fst (get_current_curriculum db user_id current_date))
  <-> In c (fst (query_curriculum_items db))
      /\ (exists n, In n (visible_newsletters db)
                    /\ Newsletter.user_id n = Some user_id
                    /\ Newsletter.id n = CurriculumItem.newsletter_id c)
      /\ CurriculumItem.start_date c <= current_date
      /\ forall e, CurriculumItem.end_date c = Some e -> current_date <= e.
Proof.
  unfold get_current_curriculum, query_curriculum_items, visible_newsletters,
    query_newsletters.
  cbn [fst]. rewrite flush_for_query_idempotent.
  rewrite filter_In, !andb_true_iff, existsb_exists, Z.leb_le.
  split.
  - intros (Hin & ((k & Hk & Hid) & Hstart) & Hend).
    apply in_map_iff in Hk. destruct Hk as (n & <- & Hn).
    apply filter_In in Hn. destruct Hn as [Hn Huser].
    apply Z.eqb_eq in Hid.
    split; [exact Hin|]. split; [|split; [exact Hstart|]].
    + exists n. split; [exact Hn|]. split; [|now symmetry].
      unfold column_eqb in Huser.
      destruct (Newsletter.user_id n) as [uid|]; [|discriminate].
      apply Z.eqb_eq in Huser. now subst.
    + intros e He. rewrite He in Hend. now apply Z.leb_le.
  - intros (Hin & (n & Hn & Huser & Hid) & Hstart & Hend).
    split; [exact Hin|]. split; [split; [|exact Hstart]|].
    + exists (Newsletter.id n). split.
      * apply in_map. apply filter_In. split; [exact Hn|].
        unfold column_eqb. rewrite Huser. apply Z.eqb_refl.
      * apply Z.eqb_eq. now symmetry.
    + destruct (CurriculumItem.end_date c) as [e|]; [|reflexivity].
      apply Z.leb_le. now apply Hend.
Qed.

(** X19.  Items added for a newsletter are in the curriculum of its user.
    After [add_curriculum_items] on a newsletter that leads to a user,
    [get_current_curriculum] for that user returns, on every date from an
    item's [start_date] to its [end_date] (or without end when it has
    none), a row with the fields of the item and the key of the
    newsletter. *)
Theorem added_items_are_current (today : date) (db : Db) (newsletter_id : Z)
    (user : User.t) (items : list CurriculumItemSchema.t)
    (item : CurriculumItemSchema.t) (current_date : date) :
  owner db newsletter_id = Some user ->
  In item items ->
  CurriculumItemSchema.start_date item <= current_date ->
  (forall e, CurriculumItemSchema.end_date item = Some e ->
             current_date <= e) ->
  let db' := snd (add_curriculum_items today db newsletter_id items) in
  exists c,
    In c (fst (get_current_curriculum db' (User.id user) current_date))
    /\ item_of c = item
    /\ CurriculumItem.newsletter_id c = newsletter_id.
Proof.
  intros Howner Hitem Hstart Hend db'.
  destruct (add_curriculum_items_loop_runs today newsletter_id items db user
              Howner) as [Hok _].
  destruct (add_curriculum_items_loop_rows today newsletter_id items db user
              Howner)
    as (_ & _ & _ & Hnl & _ & cs & ls & Hcs & Hitems & Hids & _).
  destruct (owner_newsletter db newsletter_id user Howner)
    as (n & Hn & Hid & Huser).
  apply visible_newsletters_in_session in Hn.
  rewrite <- Hitems in Hitem. apply in_map_iff in Hitem.
  destruct Hitem as (c & Hc & Hin).
  pose proof (proj1 (Forall_forall _ _) Hids c Hin) as Hcid.
  exists c. split; [|split; [exact Hc | exact Hcid]].
  subst db'.
  rewrite (add_curriculum_items_commits today db newsletter_id items Hok).
  cbn [snd].
  unfold get_current_curriculum, query_curriculum_items, query_newsletters.
  cbn [fst]. rewrite flush_for_query_idempotent, visible_after_commit.
  rewrite Hcs, Hnl.
  apply filter_In. split; [apply in_or_app; now right|].
  rewrite !andb_true_iff. split; [split|].
  - apply existsb_exists. exists (Newsletter.id n). split.
    + apply in_map. apply filter_In. split; [exact Hn|].
      unfold column_eqb. rewrite Huser. apply Z.eqb_refl.
    + apply Z.eqb_eq. congruence.
  - apply Z.leb_le. now rewrite <- Hc in Hstart.
  - rewrite <- Hc in Hend. cbn [item_of CurriculumItemSchema.end_date] in Hend.
    destruct (CurriculumItem.end_date c) as [e|]; [|reflexivity].
    apply Z.leb_le. now apply Hend.
Qed.

Lemma added_items_are_current_witness :
  let db' := snd (add_curriculum_items 0 (open_session one_topic) 1
                    [fractions_again; decimals]) in
  exists c,
    In c (fst (get_current_curriculum db' 1 50))
    /\ item_of c = decimals
    /\ CurriculumItem.newsletter_id c = 1.
Proof.
  apply (added_items_are_current 0 (open_session one_topic) 1
           {| User.id := 1; User.name := "Asha" |}
           [fractions_again; decimals] decimals 50).
  - reflexivity.
  - right. now left.
  - cbn. lia.
  - intros e He. injection He as <-. lia.
Defined.

(** ** From a recorded review to the due list *)

Lemma visible_learning_history_commit (db : Db) :
  visible_learning_history (commit db) = learning_history (stored (commit db)).
Proof.
  unfold visible_learning_history, query_learning_history. cbn [fst].
  now rewrite visible_after_commit, stored_commit.
Qed.

(** X20.  A recorded review takes the topic off the due list until its next
    review.  When the row is found in a valid state, the rating is from 0 to
    5 and the recompute returns, the reviewed row is among the rows the next
    query reads, and [get_due_topics] for its user lists it on a day exactly
    when that day is [new_interval] days or more after the session date,
    which is at least one day later. *)
Theorem reviewed_topic_leaves_the_due_list (today : date) (db : Db)
    (user_id learning_history_id : Z) (session_date : date)
    (session_type : string) (quality : Z) (notes : option string)
    (lh : LearningHistory.t) (new_ef : float) (new_interval new_reps : Z)
    (next_review : date) :
  first (has_id learning_history_id) (visible_learning_history db) = Some lh ->
  valid_row lh = true ->
  0 <= quality <= 5 ->
  calculate_next_review today (LearningHistory.easiness_factor lh)
    (LearningHistory.interval lh) (LearningHistory.repetitions lh)
    (Some quality) (Some session_date)
  = Ok (new_ef, new_interval, new_reps, next_review) ->
  let db' := snd (record_study_session today db user_id learning_history_id
                    session_date session_type (Some quality) notes) in
  let lh' := reviewed lh new_ef new_interval new_reps session_date
               next_review in
  In lh' (visible_learning_history db')
  /\ 1 <= new_interval
  /\ forall day : date,
       In lh' (fst (get_due_topics day db' (LearningHistory.user_id lh)))
       <-> session_date + new_interval <= day.
Proof.
  intros Hsome Hvalid Hq Hcalc db' lh'.
  destruct (calculate_next_review_on_valid_state today _ _ _ quality
              (Some session_date) new_ef new_interval new_reps next_review
              Hvalid Hq Hcalc)
    as (_ & _ & _ & Hnext & _ & _ & Hinterval & _).
  destruct (record_study_session_stored today db user_id learning_history_id
              session_date session_type (Some quality) notes lh new_ef
              new_interval new_reps next_review Hsome Hcalc)
    as (_ & before & after & _ & _ & Hstored & _).
  cbv zeta in Hstored. fold db' lh' in Hstored.
  assert (Hvisible : visible_learning_history db'
                     = learning_history (stored db')).
  { subst db'.
    rewrite (record_study_session_update today db user_id learning_history_id
               session_date session_type (Some quality) notes lh new_ef
               new_interval new_reps next_review Hsome Hcalc).
    cbn [snd]. apply visible_learning_history_commit. }
  assert (Hin : In lh' (visible_learning_history db')).
  { rewrite Hvisible, Hstored. apply in_or_app. right. now left. }
  split; [exact Hin|]. split; [exact Hinterval|].
  intros day. unfold get_due_topics, query_learning_history. cbn [fst].
  rewrite filter_In, andb_true_iff, Z.eqb_eq, Z.leb_le.
  subst lh'. cbn [reviewed LearningHistory.user_id LearningHistory.next_review].
  unfold add_days in Hnext. subst next_review.
  split.
  - intros (_ & _ & Hday). exact Hday.
  - intros Hday. split; [exact Hin|]. split; [reflexivity | exact Hday].
Qed.

Lemma reviewed_topic_leaves_the_due_list_witness :
  let db' := snd (record_study_session 0 (open_session one_topic) 1 1 2
                    "review" (Some 4) None) in
  let lh' := reviewed fractions f2_5 1 1 2 3 in
  In lh' (visible_learning_history db')
  /\ 1 <= 1
  /\ forall day : date,
       In lh' (fst (get_due_topics day db' (LearningHistory.user_id fractions)))
       <-> 2 + 1 <= day.
Proof.
  apply (reviewed_topic_leaves_the_due_list 0 (open_session one_topic) 1 1 2
           "review" 4 None fractions f2_5 1 1 3).
  - reflexivity.
  - reflexivity.
  - lia.
  - reflexivity.
Defined.
